(** * Flashify: the deck editor (CreateFlashcards component)

    A shallow embedding of the React component [CreateFlashcards]: its four
    state variables, the initialisation effect, the event handlers and the
    two-phase save routine, followed by the properties of the editor that the
    specification states.

    Conventions of the embedding.
    - A handler is a closure over the state of the render it was created in:
      every read of [deckTitle], [flashcardsData], [currentCardIndex] and
      [isFlipped] goes to that snapshot, every [setX] writes the pending
      state.  A handler therefore takes the snapshot as an argument and runs
      in a monad whose state is the pending editor state.
    - What a handler does to the outside (alert, confirm, console.error,
      fetch, the [onSubmit] prop) is appended to a trace, in program order.
      What the outside answers (the confirm dialog, each fetch) is read from
      an environment.
    - [throw], [try ... catch] and a rejected [await] are the error part of
      the monad.
    - A handler runs to completion before the next one starts (one user action
      per interaction cycle). *)

From Stdlib Require Import ZArith Lia Ascii String.
From stdpp Require Import list strings.

Local Open Scope string_scope.
Local Open Scope list_scope.
Local Open Scope Z_scope.

(** ** JavaScript values used by the component *)

(** Truthiness of a string: only the empty string is falsy. *)
Definition truthy (s : string) : bool :=
  match s with
  | EmptyString => false
  | String _ _ => true
  end.

(** The white space and line terminators that [String.prototype.trim] strips,
    for characters whose code unit is below 256: TAB, LF, VT, FF, CR, SP and
    NBSP. *)
Definition isWhiteSpace (a : ascii) : bool :=
  let n := nat_of_ascii a in
  bool_decide (n = 9 ∨ n = 10 ∨ n = 11 ∨ n = 12 ∨ n = 13 ∨ n = 32 ∨ n = 160)%nat.

Fixpoint trimStart (s : string) : string :=
  match s with
  | EmptyString => EmptyString
  | String a s' => if isWhiteSpace a then trimStart s' else s
  end.

Fixpoint trimEnd (s : string) : string :=
  match s with
  | EmptyString => EmptyString
  | String a s' =>
      match trimEnd s' with
      | EmptyString => if isWhiteSpace a then EmptyString else String a EmptyString
      | t => String a t
      end
  end.

Definition trim (s : string) : string := trimEnd (trimStart s).

(** [arr[i]] for a number [i]: [undefined] ([None]) unless [i] is an index of
    the array. *)
Definition js_index {A} (arr : list A) (i : Z) : option A :=
  if decide (0 ≤ i) then arr !! Z.to_nat i else None.

(** [arr.splice(start, 1)], as the array it leaves behind.  A negative
    [start] counts from the end; a start at or past the end removes nothing. *)
Definition splice1 {A} (arr : list A) (start : Z) : list A :=
  let len := Z.of_nat (length arr) in
  let actualStart := if decide (start < 0) then Z.max (len + start) 0 else Z.min start len in
  delete (Z.to_nat actualStart) arr.

(** ** Data *)

Module Card.
(** A card of the editor.  [_id] is [undefined] ([None]) on a card that was
    added in the editor. *)
Record t := mk { _id : option string; front : string; back : string }.

(** The literal [{ front: '', back: '' }]. *)
Definition blank : t := {| _id := None; front := ""; back := "" |}.

(** The test [card._id] in a condition. *)
Definition has_id (c : t) : bool :=
  match _id c with
  | Some i => truthy i
  | None => false
  end.
End Card.

Module Deck.
(** The [editDeck] prop. *)
Record t := mk {
  _id : string;
  deck_id : option string;
  title : string;
  cards : list Card.t
}.
End Deck.

Module Subject.
Record t := mk { id : string }.
End Subject.

(** The props and the context that the handlers read. *)
Record Props := mkProps {
  username : string;
  subject : option Subject.t;
  editDeck : option Deck.t
}.

(** The four state variables of the component. *)
Record Editor := mkEditor {
  deckTitle : string;
  flashcardsData : list Card.t;
  currentCardIndex : Z;
  isFlipped : bool
}.

(** ** The remote store, as the component sees it *)

(** The five requests, by method, URL and JSON body. *)
Inductive Request :=
| PutDeck (deck__id : string) (title : string)
    (* PUT /api/deck/${_id}  { title } *)
| PostDeck (username title subject_id : string)
    (* POST /api/deck  { username, title, subject_id } *)
| PutCard (card__id : string) (front back : string)
    (* PUT /api/card/${_id}  { front, back } *)
| PostCard (username : string) (deck_id : option string) (front back : string)
    (* POST /api/card  { username, deck_id, front, back } *)
| DeleteCard (card__id : string).
    (* DELETE /api/card/${_id} *)

(** What [res.json()] gives for the response to a deck creation, as far as
    [data.deck.deck_id] looks into it. *)
Inductive Json :=
| NotJson                            (* res.json() rejects *)
| NoDeck                             (* data.deck is undefined *)
| WithDeck (deck_id : option string) (* data.deck.deck_id *).

Module Response.
Record t := mk { ok : bool; json : Json }.
End Response.

(** The promise returned by [fetch], by how it settles.  It rejects only when
    the transport fails; a response with an error status fulfils it, with
    [ok = false]. *)
Inductive Settled :=
| Fulfilled (res : Response.t)
| Rejected.

(** The answers of the outside world to one run of a handler: what the user
    clicks in the confirm dialog, and how the [n]-th fetch of the run
    settles. *)
Record Env := mkEnv {
  confirm_answer : bool;
  fetch_answer : nat → Request → Settled
}.

(** What a handler does to the outside. *)
Inductive Event :=
| Alert (msg : string)
| Confirm (msg : string)
| ConsoleError (msg : string)
| Fetch (req : Request)
| OnSubmit.

(** ** The handler monad *)

Inductive Exn :=
| TypeError
| Error (msg : string)
| FetchFailed
| JsonFailed.

Inductive Completion (A : Type) :=
| Normal (a : A)
| Throw (e : Exn).
Arguments Normal {A} a.
Arguments Throw {A} e.

(** The pending editor state, the trace so far and the number of fetches
    issued so far. *)
Record World := mkWorld {
  editor : Editor;
  trace : list Event;
  issued : nat
}.

Definition Handler (A : Type) : Type := World → Completion A * World.

Definition ret {A} (a : A) : Handler A := fun w => (Normal a, w).

Definition bind {A B} (m : Handler A) (k : A → Handler B) : Handler B :=
  fun w =>
    match m w with
    | (Normal a, w') => k a w'
    | (Throw e, w') => (Throw e, w')
    end.

Definition throw {A} (e : Exn) : Handler A := fun w => (Throw e, w).

Definition try_catch {A} (body : Handler A) (handler : Exn → Handler A) : Handler A :=
  fun w =>
    match body w with
    | (Normal a, w') => (Normal a, w')
    | (Throw e, w') => handler e w'
    end.

Declare Scope handler_scope.
Delimit Scope handler_scope with handler.
Bind Scope handler_scope with Handler.
Notation "'let*' x := m 'in' k" := (bind m (fun x => k))
  (at level 10, x name, m at level 100, k at level 200) : handler_scope.
Notation "m ;; k" := (bind m (fun _ => k))
  (at level 100, k at level 200, right associativity) : handler_scope.
Notation "'try' body 'catch' x => handler" := (try_catch body (fun x => handler))
  (at level 10, x name, body at level 200, handler at level 200) : handler_scope.

Local Open Scope handler_scope.

Definition emit (e : Event) : Handler unit :=
  fun w => (Normal tt, mkWorld (editor w) (trace w ++ [e]) (issued w)).

Definition modify (f : Editor → Editor) : Handler unit :=
  fun w => (Normal tt, mkWorld (f (editor w)) (trace w) (issued w)).

Definition setDeckTitle (v : string) : Handler unit :=
  modify (fun e => mkEditor v (flashcardsData e) (currentCardIndex e) (isFlipped e)).
Definition setFlashcardsData (v : list Card.t) : Handler unit :=
  modify (fun e => mkEditor (deckTitle e) v (currentCardIndex e) (isFlipped e)).
Definition setCurrentCardIndex (v : Z) : Handler unit :=
  modify (fun e => mkEditor (deckTitle e) (flashcardsData e) v (isFlipped e)).
(** [setIsFlipped] is also called with an updater function, so it takes one. *)
Definition setIsFlipped (f : bool → bool) : Handler unit :=
  modify (fun e => mkEditor (deckTitle e) (flashcardsData e) (currentCardIndex e) (f (isFlipped e))).

Definition alert (msg : string) : Handler unit := emit (Alert msg).
Definition console_error (msg : string) : Handler unit := emit (ConsoleError msg).
Definition onSubmit : Handler unit := emit OnSubmit.

(** [await p]: the response of a fulfilled promise, an exception for a
    rejected one. *)
Definition await (p : Settled) : Handler Response.t :=
  match p with
  | Fulfilled res => ret res
  | Rejected => throw FetchFailed
  end.

(** [Promise.all(ps)] awaited: rejects as soon as one promise rejects. *)
Fixpoint promise_all (ps : list Settled) : Handler (list Response.t) :=
  match ps with
  | [] => ret []
  | p :: ps' => let* r := await p in let* rs := promise_all ps' in ret (r :: rs)
  end.

(** [arr.map(f)] for a callback with effects: the callback runs on every
    element, in order. *)
Fixpoint array_map {A B} (f : A → Handler B) (arr : list A) : Handler (list B) :=
  match arr with
  | [] => ret []
  | x :: arr' => let* y := f x in let* ys := array_map f arr' in ret (y :: ys)
  end.

(** ** The component *)

Section CreateFlashcards.

Variable props : Props.
Variable env : Env.

(** [fetch(url, init)]: the request goes out, the promise it returns is
    the one the environment settles. *)
Definition fetch (req : Request) : Handler Settled :=
  fun w =>
    (Normal (fetch_answer env (issued w) req),
     mkWorld (editor w) (trace w ++ [Fetch req]) (S (issued w))).

(** [window.confirm(msg)]. *)
Definition window_confirm (msg : string) : Handler bool :=
  emit (Confirm msg);; ret (confirm_answer env).

(** The effect that runs when [editDeck] changes (lines 26-44). *)
Definition useEffect : Handler unit :=
  match editDeck props with
  | Some editDeck =>
      setDeckTitle (Deck.title editDeck);;
      setFlashcardsData
        (map (fun card => Card.mk (Card._id card) (Card.front card) (Card.back card))
             (Deck.cards editDeck));;
      setCurrentCardIndex 0;;
      setIsFlipped (fun _ => false)
  | None =>
      setDeckTitle "";;
      setFlashcardsData [Card.blank];;
      setCurrentCardIndex 0;;
      setIsFlipped (fun _ => false)
  end.

(** The handlers close over the state [s] of the render. *)
Section Render.

Variable s : Editor.

Definition handleFlip : Handler unit := setIsFlipped negb.

Definition handlePrev : Handler unit :=
  if decide (currentCardIndex s > 0) then
    setCurrentCardIndex (currentCardIndex s - 1);;
    setIsFlipped (fun _ => false)
  else ret tt.

Definition handleNext : Handler unit :=
  if decide (currentCardIndex s < Z.of_nat (length (flashcardsData s)) - 1) then
    setCurrentCardIndex (currentCardIndex s + 1);;
    setIsFlipped (fun _ => false)
  else ret tt.

Definition handleAddFlashcard : Handler unit :=
  setFlashcardsData (flashcardsData s ++ [Card.blank]);;
  setCurrentCardIndex (Z.of_nat (length (flashcardsData s)));;
  setIsFlipped (fun _ => false).

Definition handleDeleteCard : Handler unit :=
  match js_index (flashcardsData s) (currentCardIndex s) with
  | None => throw TypeError                    (* undefined._id *)
  | Some cardToDelete =>
      match Card._id cardToDelete with
      | None => ret tt
      | Some card__id =>
          if negb (truthy card__id) then ret tt else
          let* confirm := window_confirm "Are you sure you want to delete this card?" in
          if negb confirm then ret tt else
          try
            (let* p := fetch (DeleteCard card__id) in
             let* _ := await p in
             let updated := splice1 (flashcardsData s) (currentCardIndex s) in
             setFlashcardsData
               (if decide (Z.of_nat (length updated) > 0) then updated else [Card.blank]);;
             setCurrentCardIndex (Z.max 0 (currentCardIndex s - 1));;
             setIsFlipped (fun _ => false))
          catch error =>
            (console_error "Error deleting flashcard:";;
             alert "Failed to delete flashcard.")
      end
  end.

(** [updated[currentCardIndex].front = e.target.value] on a copy of the
    array; the card object itself is shared with the old array, which no
    handler reads again. *)
Definition handleChangeFront (value : string) : Handler unit :=
  match js_index (flashcardsData s) (currentCardIndex s) with
  | None => throw TypeError
  | Some _ =>
      setFlashcardsData
        (alter (fun card => Card.mk (Card._id card) value (Card.back card))
               (Z.to_nat (currentCardIndex s)) (flashcardsData s))
  end.

Definition handleChangeBack (value : string) : Handler unit :=
  match js_index (flashcardsData s) (currentCardIndex s) with
  | None => throw TypeError
  | Some _ =>
      setFlashcardsData
        (alter (fun card => Card.mk (Card._id card) (Card.front card) value)
               (Z.to_nat (currentCardIndex s)) (flashcardsData s))
  end.

(** [card.front.trim() && card.back.trim()] as a condition. *)
Definition valid (card : Card.t) : bool :=
  truthy (trim (Card.front card)) && truthy (trim (Card.back card)).

Definition collectFlashcards : list Card.t :=
  filter (fun card => valid card = true) (flashcardsData s).

(** The callback of [collectedFlashcards.map] in [handleSubmit]. *)
Definition cardPromise (deckId : option string) (card : Card.t) : Handler Settled :=
  match Card._id card with
  | Some card__id =>
      if truthy card__id
      then fetch (PutCard card__id (Card.front card) (Card.back card))
      else fetch (PostCard (username props) deckId (Card.front card) (Card.back card))
  | None => fetch (PostCard (username props) deckId (Card.front card) (Card.back card))
  end.

Definition handleSubmit : Handler unit :=
  if negb (truthy (trim (deckTitle s))) then
    alert "Deck title is required!"
  else
  let collectedFlashcards := collectFlashcards in
  if decide (length collectedFlashcards = 0%nat) then
    alert "At least one flashcard is required!"
  else
  try
    (let* deckId :=
       match editDeck props with
       | Some editDeck =>
           let* p := fetch (PutDeck (Deck._id editDeck) (deckTitle s)) in
           let* updateDeckRes := await p in
           if negb (Response.ok updateDeckRes) then throw (Error "Failed to update deck")
           else ret (Deck.deck_id editDeck)
       | None =>
           match subject props with
           | None => throw TypeError          (* undefined.id *)
           | Some subject =>
               let* p := fetch (PostDeck (username props) (deckTitle s) (Subject.id subject)) in
               let* deckRes := await p in
               if negb (Response.ok deckRes) then throw (Error "Failed to create deck")
               else
                 match Response.json deckRes with
                 | NotJson => throw JsonFailed
                 | NoDeck => throw TypeError  (* undefined.deck_id *)
                 | WithDeck deck_id => ret deck_id
                 end
           end
       end in
     let* cardPromises := array_map (cardPromise deckId) collectedFlashcards in
     let* _ := promise_all cardPromises in
     alert (match editDeck props with
            | Some _ => "Deck updated!"
            | None => "Deck and flashcards saved!"
            end);;
     setDeckTitle "";;
     setFlashcardsData [Card.blank];;
     setCurrentCardIndex 0;;
     setIsFlipped (fun _ => false);;
     onSubmit)
  catch error =>
    (console_error "Error saving deck and flashcards:";;
     alert "Error saving deck and flashcards. Please try again.").

End Render.

End CreateFlashcards.

(** ** Running a handler *)

(** One run of a handler created in the render of state [s]: the pending
    state starts as [s], the trace is empty. *)
Definition run {A} (h : Handler A) (s : Editor) : Completion A * World :=
  h (mkWorld s [] 0).

Definition state_after {A} (r : Completion A * World) : Editor := editor (snd r).
Definition trace_of {A} (r : Completion A * World) : list Event := trace (snd r).

(** The requests, the alerts and the number of [onSubmit] calls of a trace. *)
Definition requests (t : list Event) : list Request :=
  omap (fun e => match e with Fetch req => Some req | _ => None end) t.
Definition alerts (t : list Event) : list string :=
  omap (fun e => match e with Alert msg => Some msg | _ => None end) t.
Definition callbacks (t : list Event) : nat :=
  length (omap (fun e => match e with OnSubmit => Some tt | _ => None end) t).

(** ** The editor as a state machine *)

(** The operations of the editor other than Save. *)
Inductive Op :=
| Flip
| Prev
| Next
| AddCard
| EditFront (text : string)
| EditBack (text : string)
| DeleteCurrent.

Definition handler_of (env : Env) (s : Editor) (op : Op) : Handler unit :=
  match op with
  | Flip => handleFlip
  | Prev => handlePrev s
  | Next => handleNext s
  | AddCard => handleAddFlashcard s
  | EditFront text => handleChangeFront s text
  | EditBack text => handleChangeBack s text
  | DeleteCurrent => handleDeleteCard env s
  end.

(** The state after one operation, the environment answering it with [env]. *)
Definition step (s : Editor) (act : Op * Env) : Editor :=
  state_after (run (handler_of act.2 s act.1) s).

(** The state after a sequence of operations, each with its own answers. *)
Definition steps (s : Editor) (acts : list (Op * Env)) : Editor :=
  foldl step s acts.

(** The state the editor opens in: the initialisation effect run on the
    initial values of the four state variables. *)
Definition initial : Editor := mkEditor "" [Card.blank] 0 false.
Definition opened (props : Props) : Editor := state_after (run (useEffect props) initial).

(** The states the editor can be in under given props: the one it opens in,
    and every state that an operation, a change of the title field (line 235)
    or a Save leads to from there. *)
Inductive reachable (props : Props) : Editor → Prop :=
| reachable_opened : reachable props (opened props)
| reachable_step s act : reachable props s → reachable props (step s act)
| reachable_title s value :
    reachable props s →
    reachable props (state_after (run (setDeckTitle value) s))
| reachable_save s env :
    reachable props s →
    reachable props (state_after (run (handleSubmit props env s) s)).

(** The session-state constraint: there is a card, and the cursor is on one. *)
Definition cursor_valid (s : Editor) : Prop :=
  0 ≤ currentCardIndex s < Z.of_nat (length (flashcardsData s)).

Definition well_formed (s : Editor) : Prop :=
  flashcardsData s ≠ [] ∧ cursor_valid s.

(** The card under the cursor has a persisted id. *)
Definition current_has_id (s : Editor) : Prop :=
  ∃ card, js_index (flashcardsData s) (currentCardIndex s) = Some card
          ∧ Card.has_id card = true.

(** How a fetch ends, in the terms of the remote-store contract: it succeeds
    with a success status; it fails by an error status or by a transport
    rejection. *)
Definition succeeded (p : Settled) : Prop :=
  ∃ res, p = Fulfilled res ∧ Response.ok res = true.

Inductive failed : Settled → Prop :=
| failed_status res : Response.ok res = false → failed (Fulfilled res)
| failed_transport : failed Rejected.

(** The request that [handleSubmit] sends for one collected card, and the
    promises of all of them when the first is the [n]-th fetch of the run. *)
Definition cardRequest (props : Props) (deckId : option string) (card : Card.t) : Request :=
  match Card._id card with
  | Some card__id =>
      if truthy card__id
      then PutCard card__id (Card.front card) (Card.back card)
      else PostCard (username props) deckId (Card.front card) (Card.back card)
  | None => PostCard (username props) deckId (Card.front card) (Card.back card)
  end.

Definition cardAnswers (props : Props) (env : Env) (deckId : option string)
    (n : nat) (cards : list Card.t) : list Settled :=
  imap (fun i card => fetch_answer env (n + i) (cardRequest props deckId card)) cards.

(** The card upsert of the save protocol, in the words of the specification:
    update-by-id for a card that has an id, create-under-deck-id for one that
    has none. *)
Inductive upsert_request (props : Props) (deckId : option string) (card : Card.t) : Request → Prop :=
| upsert_update card__id :
    Card._id card = Some card__id →
    Card.has_id card = true →
    upsert_request props deckId card (PutCard card__id (Card.front card) (Card.back card))
| upsert_create :
    Card.has_id card = false →
    upsert_request props deckId card
      (PostCard (username props) deckId (Card.front card) (Card.back card)).

(** The deck upsert of the save protocol went through: the request [req] (a
    title update addressed by the target's [_id] in edit mode, a creation in
    create mode) was the first fetch of the run and succeeded, and [deckId] is
    the deck id the save goes on with. *)
Inductive deck_upserted (props : Props) (env : Env) (s : Editor) : Request → option string → Prop :=
| upserted_edit d :
    editDeck props = Some d →
    succeeded (fetch_answer env 0 (PutDeck (Deck._id d) (deckTitle s))) →
    deck_upserted props env s (PutDeck (Deck._id d) (deckTitle s)) (Deck.deck_id d)
| upserted_create sub res deck_id :
    editDeck props = None →
    subject props = Some sub →
    fetch_answer env 0 (PostDeck (username props) (deckTitle s) (Subject.id sub)) = Fulfilled res →
    Response.ok res = true →
    Response.json res = WithDeck deck_id →
    deck_upserted props env s (PostDeck (username props) (deckTitle s) (Subject.id sub)) deck_id.

(** The deck upsert failed: the request [req] was sent and came back with an
    error status, or was rejected by the transport. *)
Inductive deck_upsert_failed (props : Props) (env : Env) (s : Editor) : Request → Prop :=
| upsert_failed_edit d :
    editDeck props = Some d →
    failed (fetch_answer env 0 (PutDeck (Deck._id d) (deckTitle s))) →
    deck_upsert_failed props env s (PutDeck (Deck._id d) (deckTitle s))
| upsert_failed_create sub :
    editDeck props = None →
    subject props = Some sub →
    failed (fetch_answer env 0 (PostDeck (username props) (deckTitle s) (Subject.id sub))) →
    deck_upsert_failed props env s (PostDeck (username props) (deckTitle s) (Subject.id sub)).

(** The two checks at the head of [handleSubmit] pass. *)
Definition submittable (s : Editor) : Prop :=
  trim (deckTitle s) ≠ "" ∧ collectFlashcards s ≠ [].

(** The messages of [handleSubmit]. *)
Definition saved_message (props : Props) : string :=
  match editDeck props with
  | Some _ => "Deck updated!"
  | None => "Deck and flashcards saved!"
  end.
Definition save_failed_message : string :=
  "Error saving deck and flashcards. Please try again.".

(** What a Save can do to the editor: keep it, or reset it to the blank
    create-mode state. *)
Definition kept_or_reset (s s' : Editor) : Prop :=
  s' = s ∨ s' = mkEditor "" [Card.blank] 0 false.

(** The requests that write a card. *)
Definition is_card_upsert (req : Request) : bool :=
  match req with
  | PutCard _ _ _ | PostCard _ _ _ _ => true
  | _ => false
  end.

(** ** Scenarios *)

(** Concrete props, editor states and remote stores, used to run the
    handlers on. *)
Module Scenario.

(** Create mode for user "ana", under the subject "geo". *)
Definition create_props : Props := mkProps "ana" (Some (Subject.mk "geo")) None.

(** The create-mode scenario of the specification: title "Capitals", one
    card. *)
Definition capitals : Editor :=
  mkEditor "Capitals" [Card.mk None "France capital?" "Paris"] 0 false.

(** A title of blanks and a card with an empty back. *)
Definition blanks : Editor := mkEditor "   " [Card.mk None "Q" ""] 0 false.

(** One persisted card, and two persisted cards with the cursor on the
    first. *)
Definition one_persisted : Editor :=
  mkEditor "Capitals" [Card.mk (Some "c1") "France capital?" "Paris"] 0 false.
Definition two_persisted : Editor :=
  mkEditor "Capitals"
    [Card.mk (Some "c1") "France capital?" "Paris";
     Card.mk (Some "c2") "Spain capital?" "Madrid"] 0 false.

(** An edit target whose [deck_id] is absent, and the editor opened on it
    with one more card typed in. *)
Definition target : Deck.t :=
  Deck.mk "A" None "Capitals" [Card.mk (Some "c1") "France capital?" "Paris"].
Definition edit_props : Props := mkProps "ana" None (Some target).
Definition edited : Editor :=
  mkEditor "Capitals"
    [Card.mk (Some "c1") "France capital?" "Paris";
     Card.mk None "Spain capital?" "Madrid"] 1 false.

(** An edit target all of whose cards have been deleted. *)
Definition emptied_target : Deck.t := Deck.mk "A" (Some "A") "Capitals" [].
Definition emptied_props : Props := mkProps "ana" None (Some emptied_target).

(** A store that accepts everything, and assigns the deck id "d1". *)
Definition accepting : Env :=
  mkEnv true (fun _ _ => Fulfilled (Response.mk true (WithDeck (Some "d1")))).

(** A store that answers every request with an error status. *)
Definition refusing : Env :=
  mkEnv true (fun _ _ => Fulfilled (Response.mk false NotJson)).

(** A store that accepts the first request of a run and answers every
    later one with an error status. *)
Definition refusing_cards : Env :=
  mkEnv true (fun n _ =>
    match n with
    | O => Fulfilled (Response.mk true (WithDeck (Some "d1")))
    | S _ => Fulfilled (Response.mk false NotJson)
    end).

End Scenario.

(** ** The view *)

(** [a || b] on strings. *)
Definition js_or (a b : string) : string := if truthy a then a else b.

(** The values that the JSX of the component binds (lines 218-305): the
    title of the modal, the title field, the two numbers of the counter
    "Flashcard: i/n", the text on the card, the two text fields, the
    [disabled] flags of Previous and Next, and whether the Delete button is
    there. *)
Record View := mkView {
  modalTitle : string;
  titleValue : string;
  counterIndex : Z;
  counterTotal : Z;
  cardText : string;
  frontValue : string;
  backValue : string;
  prevDisabled : bool;
  nextDisabled : bool;
  deleteShown : bool
}.

(** One render of the component in state [s].  [currentCard] is
    [flashcardsData[currentCardIndex]] (line 24); the JSX reads
    [currentCard.back] or [currentCard.front] without a guard, which throws
    when there is no such card; the Delete button alone is guarded by [?.]. *)
Definition render (props : Props) (s : Editor) : Completion View :=
  match js_index (flashcardsData s) (currentCardIndex s) with
  | None => Throw TypeError
  | Some currentCard =>
      Normal
        {| modalTitle := match editDeck props with
                         | Some _ => "Edit Flashcard Deck"
                         | None => "Create Flashcard Deck"
                         end;
           titleValue := deckTitle s;
           counterIndex := currentCardIndex s + 1;
           counterTotal := Z.of_nat (length (flashcardsData s));
           cardText := if isFlipped s
                       then js_or (Card.back currentCard) "Back side is empty"
                       else js_or (Card.front currentCard) "Front side is empty";
           frontValue := Card.front currentCard;
           backValue := Card.back currentCard;
           prevDisabled := bool_decide (currentCardIndex s = 0);
           nextDisabled :=
             bool_decide (currentCardIndex s = Z.of_nat (length (flashcardsData s)) - 1);
           deleteShown := Card.has_id currentCard |}
  end.

(** ** Vocabulary of the further properties *)

(** A string made of white space only (the empty string included). *)
Fixpoint allWhiteSpace (s : string) : bool :=
  match s with
  | EmptyString => true
  | String a s' => isWhiteSpace a && allWhiteSpace s'
  end.

(** The requests that write a deck. *)
Definition is_deck_upsert (req : Request) : bool :=
  match req with
  | PutDeck _ _ | PostDeck _ _ _ => true
  | _ => false
  end.


(** The blank create-mode state. *)
Definition blank_editor : Editor := mkEditor "" [Card.blank] 0 false.

(** A card with one side replaced, as the two change handlers leave it. *)
Definition with_front (value : string) (card : Card.t) : Card.t :=
  Card.mk (Card._id card) value (Card.back card).
Definition with_back (value : string) (card : Card.t) : Card.t :=
  Card.mk (Card._id card) (Card.front card) value.

(** The ways a Save can end, as the run of [handleSubmit] they leave: refused
    by one of the two checks; given up before any request; stopped at the
    deck request; stopped after the card requests; done. *)
Inductive save_outcome (props : Props) (s : Editor) : Completion unit * World → Prop :=
| save_refused msg :
    msg ∈ ["Deck title is required!"; "At least one flashcard is required!"] →
    save_outcome props s (Normal tt, mkWorld s [Alert msg] 0)
| save_not_sent :
    save_outcome props s
      (Normal tt,
       mkWorld s [ConsoleError "Error saving deck and flashcards:";
                  Alert save_failed_message] 0)
| save_deck_failed req :
    is_deck_upsert req = true →
    save_outcome props s
      (Normal tt,
       mkWorld s [Fetch req; ConsoleError "Error saving deck and flashcards:";
                  Alert save_failed_message] 1)
| save_cards_failed req deckId :
    is_deck_upsert req = true →
    save_outcome props s
      (Normal tt,
       mkWorld s
         (Fetch req :: map Fetch (map (cardRequest props deckId) (collectFlashcards s))
            ++ [ConsoleError "Error saving deck and flashcards:"; Alert save_failed_message])
         (S (length (collectFlashcards s))))
| save_done req deckId :
    is_deck_upsert req = true →
    save_outcome props s
      (Normal tt,
       mkWorld (mkEditor "" [Card.blank] 0 false)
         (Fetch req :: map Fetch (map (cardRequest props deckId) (collectFlashcards s))
            ++ [Alert (saved_message props); OnSubmit])
         (S (length (collectFlashcards s)))).

(** More concrete states and stores. *)
Module Cases.

(** Three persisted cards, the cursor on the middle one, the back shown. *)
Definition three : Editor :=
  mkEditor "Capitals"
    [Card.mk (Some "c1") "France capital?" "Paris";
     Card.mk (Some "c2") "Spain capital?" "Madrid";
     Card.mk (Some "c3") "Italy capital?" "Rome"] 1 true.

(** A store that is not reachable. *)
Definition unreachable : Env := mkEnv true (fun _ _ => Rejected).

(** A store that creates the deck and is unreachable afterwards. *)
Definition unreachable_cards : Env :=
  mkEnv true (fun n _ =>
    match n with
    | O => Fulfilled (Response.mk true (WithDeck (Some "d1")))
    | S _ => Rejected
    end).

(** A store that answers with a success status and a body that is not JSON. *)
Definition garbled : Env := mkEnv true (fun _ _ => Fulfilled (Response.mk true NotJson)).

(** Create mode without the [subject] prop. *)
Definition no_subject_props : Props := mkProps "ana" None None.

(** An edit target with two saved cards. *)
Definition saved_target : Deck.t :=
  Deck.mk "A" (Some "A") "Capitals"
    [Card.mk (Some "c1") "France capital?" "Paris";
     Card.mk (Some "c2") "Spain capital?" "Madrid"].
Definition saved_props : Props := mkProps "ana" None (Some saved_target).

End Cases.

(** * Properties *)

(** ** Generic facts about runs *)

Ltac run_handler :=
  unfold run, state_after, trace_of, bind, ret, throw, try_catch, alert, console_error,
    onSubmit, emit, setDeckTitle, setFlashcardsData, setCurrentCardIndex, setIsFlipped,
    modify, window_confirm, fetch, await in *;
  cbn [fst snd editor trace issued deckTitle flashcardsData currentCardIndex isFlipped] in *.

Example trim_inner_space : trim (String "009" "  France  capital? ") = "France  capital?".
Proof. reflexivity. Qed.

Example trim_blanks : trim "   " = "".
Proof. reflexivity. Qed.

Example splice1_first : splice1 [1; 2; 3] 0 = [2; 3].
Proof. reflexivity. Qed.

Example splice1_from_end : splice1 [1; 2; 3] (-1) = [1; 2].
Proof. reflexivity. Qed.

Example splice1_past_end : splice1 [1; 2; 3] 3 = [1; 2; 3].
Proof. reflexivity. Qed.

Lemma editor_eta (s : Editor) :
  mkEditor (deckTitle s) (flashcardsData s) (currentCardIndex s) (isFlipped s) = s.
Proof. by destruct s. Qed.

Lemma js_index_Some {A} (arr : list A) (i : Z) (x : A) :
  js_index arr i = Some x → 0 ≤ i < Z.of_nat (length arr).
Proof.
  unfold js_index. case_decide; [|done].
  intros Hx. apply lookup_lt_Some in Hx. lia.
Qed.

Lemma splice1_length {A} (arr : list A) (i : Z) :
  0 ≤ i < Z.of_nat (length arr) →
  length (splice1 arr i) = Nat.pred (length arr).
Proof.
  intros Hi. unfold splice1. case_decide; [lia|].
  rewrite length_delete; [lia|].
  apply lookup_lt_is_Some. lia.
Qed.

(** ** Navigation, add and edit *)

Lemma step_Flip s env :
  step s (Flip, env) = mkEditor (deckTitle s) (flashcardsData s) (currentCardIndex s) (negb (isFlipped s)).
Proof. reflexivity. Qed.

Lemma step_Prev s env :
  step s (Prev, env) =
    if decide (currentCardIndex s > 0)
    then mkEditor (deckTitle s) (flashcardsData s) (currentCardIndex s - 1) false
    else s.
Proof.
  unfold step, handler_of, handlePrev. cbn [fst snd]. by case_decide.
Qed.

Lemma step_Next s env :
  step s (Next, env) =
    if decide (currentCardIndex s < Z.of_nat (length (flashcardsData s)) - 1)
    then mkEditor (deckTitle s) (flashcardsData s) (currentCardIndex s + 1) false
    else s.
Proof.
  unfold step, handler_of, handleNext. cbn [fst snd]. by case_decide.
Qed.

Lemma step_AddCard s env :
  step s (AddCard, env) =
    mkEditor (deckTitle s) (flashcardsData s ++ [Card.blank])
             (Z.of_nat (length (flashcardsData s))) false.
Proof. reflexivity. Qed.

(** Editing a side keeps the number of cards, the cursor and the flip. *)
Lemma step_EditFront s env text :
  ∃ cards, step s (EditFront text, env)
           = mkEditor (deckTitle s) cards (currentCardIndex s) (isFlipped s)
           ∧ length cards = length (flashcardsData s).
Proof.
  unfold step, handler_of, handleChangeFront. cbn [fst snd].
  destruct (js_index _ _) as [card|]; run_handler.
  - eexists. split; [done|]. apply length_alter.
  - exists (flashcardsData s). by rewrite editor_eta.
Qed.

Lemma step_EditBack s env text :
  ∃ cards, step s (EditBack text, env)
           = mkEditor (deckTitle s) cards (currentCardIndex s) (isFlipped s)
           ∧ length cards = length (flashcardsData s).
Proof.
  unfold step, handler_of, handleChangeBack. cbn [fst snd].
  destruct (js_index _ _) as [card|]; run_handler.
  - eexists. split; [done|]. apply length_alter.
  - exists (flashcardsData s). by rewrite editor_eta.
Qed.

(** ** Delete *)

(** The three ways [handleDeleteCard] can go once the card under the cursor
    has an id and the user confirms. *)
Lemma run_handleDeleteCard_confirmed env s card card__id :
  js_index (flashcardsData s) (currentCardIndex s) = Some card →
  Card._id card = Some card__id →
  truthy card__id = true →
  confirm_answer env = true →
  run (handleDeleteCard env s) s =
    match fetch_answer env 0 (DeleteCard card__id) with
    | Fulfilled _ =>
        (Normal tt,
         mkWorld
           (mkEditor (deckTitle s)
              (if decide (Z.of_nat (length (splice1 (flashcardsData s) (currentCardIndex s))) > 0)
               then splice1 (flashcardsData s) (currentCardIndex s) else [Card.blank])
              (Z.max 0 (currentCardIndex s - 1)) false)
           [Confirm "Are you sure you want to delete this card?"; Fetch (DeleteCard card__id)]
           1)
    | Rejected =>
        (Normal tt,
         mkWorld s
           [Confirm "Are you sure you want to delete this card?"; Fetch (DeleteCard card__id);
            ConsoleError "Error deleting flashcard:"; Alert "Failed to delete flashcard."]
           1)
    end.
Proof.
  intros Hcur Hid Htruthy Hconfirm.
  unfold handleDeleteCard. rewrite Hcur, Hid, Htruthy. run_handler.
  rewrite Hconfirm. cbn.
  by destruct (fetch_answer env 0 (DeleteCard card__id)).
Qed.

(** Delete either leaves the state alone, or removes the card under a valid
    cursor, steps the cursor back and shows the front. *)
Lemma step_DeleteCurrent s env :
  step s (DeleteCurrent, env) = s
  ∨ (0 ≤ currentCardIndex s < Z.of_nat (length (flashcardsData s))
     ∧ step s (DeleteCurrent, env) =
         mkEditor (deckTitle s)
           (if decide (Z.of_nat (length (splice1 (flashcardsData s) (currentCardIndex s))) > 0)
            then splice1 (flashcardsData s) (currentCardIndex s) else [Card.blank])
           (Z.max 0 (currentCardIndex s - 1)) false).
Proof.
  unfold step, handler_of. cbn [fst snd]. unfold handleDeleteCard.
  destruct (js_index _ _) as [card|] eqn:Hcur; [|by left].
  destruct (Card._id card) as [card__id|] eqn:Hid; [|by left].
  destruct (truthy card__id) eqn:Htruthy; [|by left].
  run_handler. destruct (confirm_answer env); [|by left]. cbn.
  destruct (fetch_answer env 0 (DeleteCard card__id)); [|by left].
  right. split; [|done]. by eapply js_index_Some.
Qed.

(** ** The session-state invariant *)

Lemma well_formed_cursor s : cursor_valid s → well_formed s.
Proof.
  intros Hc. split; [|done].
  unfold cursor_valid in Hc. destruct (flashcardsData s); [cbn in Hc; lia|done].
Qed.

Lemma step_cursor_valid s act : cursor_valid s → cursor_valid (step s act).
Proof.
  unfold cursor_valid. intros Hc. destruct act as [[| | | |text|text|] env].
  - by rewrite step_Flip.
  - rewrite step_Prev. case_decide; cbn; lia.
  - rewrite step_Next. case_decide; cbn; lia.
  - rewrite step_AddCard. cbn. rewrite length_app. cbn. lia.
  - destruct (step_EditFront s env text) as (cards & -> & Hlen). cbn. lia.
  - destruct (step_EditBack s env text) as (cards & -> & Hlen). cbn. lia.
  - destruct (step_DeleteCurrent s env) as [->|[Hi ->]]; [done|]. cbn.
    pose proof (splice1_length (flashcardsData s) (currentCardIndex s) Hi) as Hlen.
    case_decide; cbn; lia.
Qed.

Lemma steps_cursor_valid s acts : cursor_valid s → cursor_valid (steps s acts).
Proof.
  revert s. induction acts as [|act acts IH]; intros s Hc; [done|].
  cbn. apply IH. by apply step_cursor_valid.
Qed.

(** Create mode opens on one blank card; edit mode opens on the cards of the
    target, whatever their number. *)
Lemma opened_create props :
  editDeck props = None → opened props = mkEditor "" [Card.blank] 0 false.
Proof. intros Hmode. unfold opened, useEffect. by rewrite Hmode. Qed.

Lemma opened_edit props d :
  editDeck props = Some d →
  opened props =
    mkEditor (Deck.title d)
      (map (fun card => Card.mk (Card._id card) (Card.front card) (Card.back card)) (Deck.cards d))
      0 false.
Proof. intros Hmode. unfold opened, useEffect. by rewrite Hmode. Qed.

Lemma opened_cursor_valid props :
  (∀ d, editDeck props = Some d → Deck.cards d ≠ []) → cursor_valid (opened props).
Proof.
  intros Hcards. unfold cursor_valid.
  destruct (editDeck props) as [d|] eqn:Hmode.
  - rewrite (opened_edit props d Hmode). cbn. rewrite length_map.
    specialize (Hcards d eq_refl). destruct (Deck.cards d); [done|cbn; lia].
  - rewrite (opened_create props Hmode). cbn. lia.
Qed.

(** An operation that moves to another card shows its front: Prev, Next, Add
    and Delete either change nothing at all or leave [isFlipped] false. *)
Lemma step_resets_flip s op env :
  op ∈ [Prev; Next; AddCard; DeleteCurrent] →
  step s (op, env) = s ∨ isFlipped (step s (op, env)) = false.
Proof.
  intros Hop. repeat (apply elem_of_cons in Hop as [->|Hop]).
  - rewrite step_Prev. case_decide; [by right|by left].
  - rewrite step_Next. case_decide; [by right|by left].
  - right. by rewrite step_AddCard.
  - destruct (step_DeleteCurrent s env) as [->|[_ ->]]; [by left|by right].
  - by apply elem_of_nil in Hop.
Qed.

(** ** Save *)

Lemma truthy_true s : truthy s = true ↔ s ≠ "".
Proof. by destruct s. Qed.

Lemma valid_true card :
  valid card = true ↔ trim (Card.front card) ≠ "" ∧ trim (Card.back card) ≠ "".
Proof. unfold valid. rewrite andb_true_iff, !truthy_true. done. Qed.

Lemma elem_of_collectFlashcards s card :
  card ∈ collectFlashcards s ↔ card ∈ flashcardsData s ∧ valid card = true.
Proof. unfold collectFlashcards. rewrite list_elem_of_filter. tauto. Qed.

Lemma cardRequest_upsert props deckId card :
  upsert_request props deckId card (cardRequest props deckId card).
Proof.
  unfold cardRequest.
  destruct (Card._id card) as [card__id|] eqn:Hid.
  - destruct (truthy card__id) eqn:Htruthy.
    + apply upsert_update; [done|]. unfold Card.has_id. by rewrite Hid.
    + apply upsert_create. unfold Card.has_id. by rewrite Hid.
  - apply upsert_create. unfold Card.has_id. by rewrite Hid.
Qed.

(** Every collected card gets its request, in the order of the array, and
    the map itself never throws. *)
Lemma array_map_cardPromise props env deckId cards w :
  array_map (cardPromise props env deckId) cards w =
    (Normal (cardAnswers props env deckId (issued w) cards),
     mkWorld (editor w)
             (trace w ++ map Fetch (map (cardRequest props deckId) cards))
             (issued w + length cards)).
Proof.
  revert w. induction cards as [|card cards IH]; intros w.
  - cbn. unfold ret. destruct w. cbn. rewrite app_nil_r. do 2 f_equal. lia.
  - cbn [array_map]. unfold bind at 1.
    assert (cardPromise props env deckId card w =
            (Normal (fetch_answer env (issued w) (cardRequest props deckId card)),
             mkWorld (editor w) (trace w ++ [Fetch (cardRequest props deckId card)])
                     (S (issued w)))) as ->.
    { unfold cardPromise, cardRequest.
      destruct (Card._id card) as [card__id|]; [destruct (truthy card__id)|]; done. }
    unfold bind at 1. rewrite IH. cbn.
    unfold ret, cardAnswers. cbn. rewrite Nat.add_0_r, <- app_assoc. cbn.
    do 2 f_equal.
    + f_equal. apply imap_ext. intros i c _. cbn. by rewrite Nat.add_succ_r.
    + f_equal. lia.
Qed.

Lemma promise_all_fulfilled ps w :
  Rejected ∉ ps → ∃ rs, promise_all ps w = (Normal rs, w).
Proof.
  induction ps as [|p ps IH]; intros Hps.
  - by exists [].
  - apply not_elem_of_cons in Hps as [Hp Hps]. destruct (IH Hps) as [rs Hrs].
    destruct p as [res|]; [|done]. exists (res :: rs).
    cbn. unfold bind at 1. cbn. by rewrite Hrs.
Qed.

Lemma promise_all_rejected ps w :
  Rejected ∈ ps → promise_all ps w = (Throw FetchFailed, w).
Proof.
  induction ps as [|p ps IH]; intros Hps.
  - by apply elem_of_nil in Hps.
  - destruct p as [res|]; [|done].
    apply elem_of_cons in Hps as [?|Hps]; [done|].
    cbn. unfold bind at 1. cbn. by rewrite (IH Hps).
Qed.

(** Awaiting does nothing to the outside. *)
Lemma promise_all_snd ps w : (promise_all ps w).2 = w.
Proof.
  induction ps as [|p ps IH]; [done|].
  cbn. unfold bind at 1. destruct p as [res|]; cbn; [|done].
  unfold bind at 1. destruct (promise_all ps w) as [[rs|e] w'']; done.
Qed.

Lemma promise_all_world ps w c w' : promise_all ps w = (c, w') → w' = w.
Proof. intros Hall. by rewrite <- (promise_all_snd ps w), Hall. Qed.

(** The runs of [handleSubmit], case by case. *)

Lemma run_handleSubmit_no_title props env s :
  trim (deckTitle s) = "" →
  run (handleSubmit props env s) s =
    (Normal tt, mkWorld s [Alert "Deck title is required!"] 0).
Proof. intros Htitle. unfold handleSubmit. by rewrite Htitle. Qed.

Lemma run_handleSubmit_no_cards props env s :
  trim (deckTitle s) ≠ "" →
  collectFlashcards s = [] →
  run (handleSubmit props env s) s =
    (Normal tt, mkWorld s [Alert "At least one flashcard is required!"] 0).
Proof.
  intros Htitle Hcards. apply truthy_true in Htitle.
  unfold handleSubmit. rewrite Htitle, Hcards. done.
Qed.

Lemma run_handleSubmit_deck_failed props env s req :
  submittable s →
  deck_upsert_failed props env s req →
  run (handleSubmit props env s) s =
    (Normal tt,
     mkWorld s [Fetch req; ConsoleError "Error saving deck and flashcards:";
                Alert save_failed_message] 1).
Proof.
  intros [Htitle Hcards] Hfail. apply truthy_true in Htitle.
  unfold handleSubmit. rewrite Htitle. cbn [negb].
  case_decide as Hlen; [by apply nil_length_inv in Hlen|].
  destruct Hfail as [d Hmode Hfail|sub Hmode Hsub Hfail];
    rewrite Hmode; [|rewrite Hsub]; run_handler;
    inversion Hfail as [res Hok Hres|Hres]; cbn; try rewrite Hok; done.
Qed.

Lemma run_handleSubmit_upserted props env s req deckId :
  submittable s →
  deck_upserted props env s req deckId →
  run (handleSubmit props env s) s =
    let cards := collectFlashcards s in
    let sent := Fetch req :: map Fetch (map (cardRequest props deckId) cards) in
    match promise_all (cardAnswers props env deckId 1 cards) (mkWorld s sent (S (length cards))) with
    | (Normal _, _) =>
        (Normal tt,
         mkWorld (mkEditor "" [Card.blank] 0 false)
                 (sent ++ [Alert (saved_message props); OnSubmit])
                 (S (length cards)))
    | (Throw _, _) =>
        (Normal tt,
         mkWorld s
                 (sent ++ [ConsoleError "Error saving deck and flashcards:";
                           Alert save_failed_message])
                 (S (length cards)))
    end.
Proof.
  intros [Htitle Hcards] Hdeck. apply truthy_true in Htitle.
  unfold handleSubmit. rewrite Htitle. cbn [negb].
  case_decide as Hlen; [by apply nil_length_inv in Hlen|].
  unfold run, try_catch, saved_message.
  destruct Hdeck as [d Hmode (res & Hres & Hok)|sub res deck_id Hmode Hsub Hres Hok Hjson];
    rewrite Hmode; [|rewrite Hsub].
  - unfold bind at 1. unfold bind at 1. unfold fetch at 1. cbn [issued trace editor].
    rewrite Hres. unfold bind at 1. cbn [await ret]. rewrite Hok. cbn [negb ret].
    unfold bind at 1. rewrite array_map_cardPromise. cbn [issued trace editor app].
    unfold bind at 1.
    destruct (promise_all _ _) as [[rs|e] w'] eqn:Hall;
      apply promise_all_world in Hall as ->; run_handler;
      by rewrite <- app_assoc.
  - unfold bind at 1. unfold bind at 1. unfold fetch at 1. cbn [issued trace editor].
    rewrite Hres. unfold bind at 1. cbn [await ret]. rewrite Hok. cbn [negb ret].
    rewrite Hjson. cbn [ret].
    unfold bind at 1. rewrite array_map_cardPromise. cbn [issued trace editor app].
    unfold bind at 1.
    destruct (promise_all _ _) as [[rs|e] w'] eqn:Hall;
      apply promise_all_world in Hall as ->; run_handler;
      by rewrite <- app_assoc.
Qed.

Lemma run_handleSubmit_saved props env s req deckId :
  submittable s →
  deck_upserted props env s req deckId →
  Rejected ∉ cardAnswers props env deckId 1 (collectFlashcards s) →
  run (handleSubmit props env s) s =
    (Normal tt,
     mkWorld (mkEditor "" [Card.blank] 0 false)
       (Fetch req :: map Fetch (map (cardRequest props deckId) (collectFlashcards s))
          ++ [Alert (saved_message props); OnSubmit])
       (S (length (collectFlashcards s)))).
Proof.
  intros Hs Hdeck Hcards.
  rewrite (run_handleSubmit_upserted props env s req deckId Hs Hdeck). cbn zeta.
  edestruct promise_all_fulfilled as [rs ->]; done.
Qed.

Lemma run_handleSubmit_card_rejected props env s req deckId :
  submittable s →
  deck_upserted props env s req deckId →
  Rejected ∈ cardAnswers props env deckId 1 (collectFlashcards s) →
  run (handleSubmit props env s) s =
    (Normal tt,
     mkWorld s
       (Fetch req :: map Fetch (map (cardRequest props deckId) (collectFlashcards s))
          ++ [ConsoleError "Error saving deck and flashcards:"; Alert save_failed_message])
       (S (length (collectFlashcards s)))).
Proof.
  intros Hs Hdeck Hcards.
  rewrite (run_handleSubmit_upserted props env s req deckId Hs Hdeck). cbn zeta.
  by rewrite promise_all_rejected.
Qed.

(** Whatever the store answers, a Save leaves the editor as it was or resets
    it to the blank create-mode state. *)
Lemma handleSubmit_state props env s :
  kept_or_reset s (state_after (run (handleSubmit props env s) s)).
Proof.
  unfold handleSubmit.
  destruct (truthy (trim (deckTitle s))); cbn [negb]; [|by left].
  case_decide; [by left|].
  assert (∀ deckId sent n msg,
    let rest :=
      (let* cardPromises := array_map (cardPromise props env deckId) (collectFlashcards s) in
       let* _ := promise_all cardPromises in
       alert msg;;
       setDeckTitle "";;
       setFlashcardsData [Card.blank];;
       setCurrentCardIndex 0;;
       setIsFlipped (fun _ => false);;
       onSubmit) in
    kept_or_reset s
      (editor (match rest (mkWorld s sent n) with
               | (Normal a, w') => (Normal a, w')
               | (Throw e, w') =>
                   (console_error "Error saving deck and flashcards:";;
                    alert "Error saving deck and flashcards. Please try again.") w'
               end).2)) as Hrest.
  { intros deckId sent n msg. cbn zeta.
    unfold bind at 1. rewrite array_map_cardPromise. cbn [issued trace editor].
    unfold bind at 1.
    destruct (promise_all _ _) as [[rs|e] w'] eqn:Hall;
      apply promise_all_world in Hall as ->; run_handler; [by right|by left]. }
  unfold run, state_after, try_catch.
  destruct (editDeck props) as [d|] eqn:Hmode.
  - unfold bind at 1. unfold bind at 1. unfold fetch at 1. cbn [issued trace editor].
    destruct (fetch_answer env 0 _) as [res|]; [|by left].
    unfold bind at 1. cbn [await ret].
    destruct (Response.ok res); cbn [negb]; [|by left].
    cbn [ret]. apply Hrest.
  - destruct (subject props) as [sub|]; [|by left].
    unfold bind at 1. unfold bind at 1. unfold fetch at 1. cbn [issued trace editor].
    destruct (fetch_answer env 0 _) as [res|]; [|by left].
    unfold bind at 1. cbn [await ret].
    destruct (Response.ok res); cbn [negb]; [|by left].
    destruct (Response.json res); [by left|by left|].
    cbn [ret]. apply Hrest.
Qed.

(** What the observers see in a trace of requests followed by other events. *)
Lemma requests_sent reqs t :
  requests (map Fetch reqs ++ t) = reqs ++ requests t.
Proof.
  unfold requests. rewrite omap_app. f_equal.
  induction reqs as [|req reqs IH]; [done|]. cbn. by rewrite IH.
Qed.

Lemma alerts_sent reqs t : alerts (map Fetch reqs ++ t) = alerts t.
Proof.
  unfold alerts. rewrite omap_app.
  induction reqs as [|req reqs IH]; [done|]. cbn. by rewrite IH.
Qed.

Lemma callbacks_sent reqs t : callbacks (map Fetch reqs ++ t) = callbacks t.
Proof.
  unfold callbacks. rewrite omap_app, length_app.
  induction reqs as [|req reqs IH]; [done|]. cbn. by rewrite IH.
Qed.


Lemma collectFlashcards_nil s :
  (∀ card, card ∈ flashcardsData s → valid card ≠ true) → collectFlashcards s = [].
Proof.
  unfold collectFlashcards. induction (flashcardsData s) as [|card cards IH]; intros Hnone; [done|].
  rewrite filter_cons_False by (apply Hnone; left).
  apply IH. intros card' Hcard'. apply Hnone. by right.
Qed.

(** Opened in create mode, or on a deck that has a card, the editor always
    has a card and the cursor is always on one. *)
Lemma reachable_well_formed props s :
  (∀ d, editDeck props = Some d → Deck.cards d ≠ []) →
  reachable props s → well_formed s.
Proof.
  intros Hcards Hreach. apply well_formed_cursor.
  induction Hreach as [|s act _ IH|s value _ IH|s env _ IH].
  - by apply opened_cursor_valid.
  - by apply step_cursor_valid.
  - exact IH.
  - destruct (handleSubmit_state props env s) as [->| ->]; [done|].
    unfold cursor_valid. cbn. lia.
Qed.

Lemma reachable_steps props s acts :
  reachable props s → reachable props (steps s acts).
Proof.
  revert s. induction acts as [|act acts IH]; intros s Hreach; [done|].
  cbn. apply IH. by constructor.
Qed.

(** The invariant of the session state, for an editor opened in create mode
    or on a deck that has a card: from every reachable state and after every
    sequence of operations, there is a card and the cursor is on one. *)
Lemma editor_invariant props s acts :
  (∀ d, editDeck props = Some d → Deck.cards d ≠ []) →
  reachable props s →
  flashcardsData (steps s acts) ≠ []
  ∧ 0 ≤ currentCardIndex (steps s acts) ≤ Z.of_nat (length (flashcardsData (steps s acts))) - 1.
Proof.
  intros Hcards Hreach.
  destruct (reachable_well_formed props (steps s acts) Hcards) as [Hne Hcur].
  { by apply reachable_steps. }
  unfold cursor_valid in Hcur. split; [done|lia].
Qed.

(** * The claims of the specification *)

(** ** Add *)

(** C8. AddCard, in every editor state: the list of cards afterwards is the
    old list with one blank untagged card appended, the cursor is on the last
    index of the new list, the front is shown; the title is kept and nothing
    reaches the outside. *)
Theorem handleAddFlashcard_appends s :
  let r := run (handleAddFlashcard s) s in
  flashcardsData (state_after r) = flashcardsData s ++ [Card.mk None "" ""]
  ∧ currentCardIndex (state_after r) = Z.of_nat (length (flashcardsData (state_after r))) - 1
  ∧ isFlipped (state_after r) = false
  ∧ deckTitle (state_after r) = deckTitle s
  ∧ trace_of r = [].
Proof.
  cbn. repeat split; try done.
  rewrite length_app. cbn. lia.
Qed.

(** ** Delete *)

(** C9. DeleteCard when the card under the cursor has no persisted id, or
    when the user declines the confirmation: no request is sent and the whole
    editor state (cards, cursor, flip, title) is as before. *)
Theorem handleDeleteCard_gated env s :
  ¬ current_has_id s ∨ confirm_answer env = false →
  let r := run (handleDeleteCard env s) s in
  requests (trace_of r) = [] ∧ state_after r = s.
Proof.
  intros Hgate. cbn zeta. unfold handleDeleteCard.
  destruct (js_index _ _) as [card|] eqn:Hcur; [|done].
  destruct (Card._id card) as [card__id|] eqn:Hid; [|done].
  destruct (truthy card__id) eqn:Htruthy; [|done].
  destruct Hgate as [Hno|Hdecline].
  - destruct Hno. exists card. split; [done|].
    unfold Card.has_id. by rewrite Hid.
  - run_handler. by rewrite Hdecline.
Qed.

(** C7. DeleteCard on the only card of the editor, the card having a
    persisted id, the user confirming and the remote delete succeeding: the
    editor is left with exactly one blank untagged card, the cursor on 0 and
    the front shown. *)
Theorem handleDeleteCard_last_card env s card card__id :
  flashcardsData s = [card] →
  cursor_valid s →
  Card._id card = Some card__id →
  Card.has_id card = true →
  confirm_answer env = true →
  succeeded (fetch_answer env 0 (DeleteCard card__id)) →
  let s' := state_after (run (handleDeleteCard env s) s) in
  flashcardsData s' = [Card.mk None "" ""]
  ∧ currentCardIndex s' = 0
  ∧ isFlipped s' = false.
Proof.
  intros Hcards Hcursor Hid Hhas Hconfirm (res & Hres & _).
  unfold cursor_valid in Hcursor. rewrite Hcards in Hcursor. cbn in Hcursor.
  assert (currentCardIndex s = 0) as Hzero by lia.
  unfold Card.has_id in Hhas. rewrite Hid in Hhas.
  cbn zeta.
  rewrite (run_handleDeleteCard_confirmed env s card card__id); try done.
  - rewrite Hres. unfold state_after. cbn. by rewrite Hcards, Hzero.
  - by rewrite Hcards, Hzero.
Qed.

(** ** Save *)

(** C4. Save with a title that is empty after trimming, or with no card whose
    front and back are both non-empty after trimming: no request is sent, one
    message is shown to the user, and the editor state is as before. *)
Theorem handleSubmit_validation props env s :
  trim (deckTitle s) = ""
  ∨ (∀ card, card ∈ flashcardsData s →
       ¬ (trim (Card.front card) ≠ "" ∧ trim (Card.back card) ≠ "")) →
  let r := run (handleSubmit props env s) s in
  requests (trace_of r) = []
  ∧ (∃ msg, alerts (trace_of r) = [msg])
  ∧ state_after r = s.
Proof.
  intros Hinvalid. cbn zeta.
  destruct (decide (trim (deckTitle s) = "")) as [Htitle|Htitle].
  - rewrite (run_handleSubmit_no_title props env s Htitle). eauto.
  - destruct Hinvalid as [?|Hcards]; [done|].
    rewrite (run_handleSubmit_no_cards props env s Htitle); [eauto|].
    apply collectFlashcards_nil.
    intros card Hcard Hvalid. by apply (Hcards card Hcard), valid_true.
Qed.

(** C5. Save whose deck upsert fails (title update in edit mode, creation in
    create mode; error status or transport rejection): the deck request is
    the only request of the save, so no card is created or updated; the user
    gets the error message; the editor state is as before, not reset; the
    completion callback is not called. *)
Theorem handleSubmit_deck_upsert_failed props env s req :
  submittable s →
  deck_upsert_failed props env s req →
  let r := run (handleSubmit props env s) s in
  requests (trace_of r) = [req]
  ∧ Forall (fun req' => is_card_upsert req' = false) (requests (trace_of r))
  ∧ alerts (trace_of r) = [save_failed_message]
  ∧ state_after r = s
  ∧ callbacks (trace_of r) = 0%nat.
Proof.
  intros Hs Hfail. cbn zeta.
  rewrite (run_handleSubmit_deck_failed props env s req Hs Hfail).
  repeat split; try done.
  cbn. apply Forall_singleton. by destruct Hfail.
Qed.

(** C6. Save whose deck upsert succeeds and whose card requests all resolve:
    the editor is reset to the blank create-mode state (empty title, exactly
    one blank untagged card, cursor 0, front shown); the completion callback
    is called exactly once; after the deck request, the requests are, card by
    card and in order, those of the valid cards only: an update by id for a
    card that has an id, a creation under the deck id for one that has none. *)
Theorem handleSubmit_saved props env s req deckId :
  submittable s →
  deck_upserted props env s req deckId →
  Rejected ∉ cardAnswers props env deckId 1 (collectFlashcards s) →
  let r := run (handleSubmit props env s) s in
  state_after r = mkEditor "" [Card.mk None "" ""] 0 false
  ∧ callbacks (trace_of r) = 1%nat
  ∧ ∃ cardReqs,
      requests (trace_of r) = req :: cardReqs
      ∧ Forall2 (upsert_request props deckId)
                (filter (fun card => valid card = true) (flashcardsData s)) cardReqs.
Proof.
  intros Hs Hdeck Hcards. cbn zeta.
  rewrite (run_handleSubmit_saved props env s req deckId Hs Hdeck Hcards).
  unfold state_after, trace_of. cbn [snd editor trace].
  split; [done|]. split.
  - change (Fetch req :: ?t) with (map Fetch [req] ++ t).
    by rewrite !callbacks_sent.
  - exists (map (cardRequest props deckId) (collectFlashcards s)). split.
    + change (Fetch req :: ?t) with (map Fetch [req] ++ t).
      rewrite !requests_sent. cbn. by rewrite app_nil_r.
    + apply Forall2_fmap_r, Forall_Forall2_diag, Forall_forall.
      intros card _. apply cardRequest_upsert.
Qed.

(** C10. Save in edit mode, past the two checks and with the title update
    accepted: the title update is addressed by the target's [_id]; every
    card without an id is created under the target's [deck_id], whatever it
    is and whatever the response to the title update holds; and when no card
    request is rejected the save ends as a success, with no check that
    [deck_id] is there or matches [_id]. *)
Theorem handleSubmit_edit_deck_id props env s d :
  editDeck props = Some d →
  submittable s →
  succeeded (fetch_answer env 0 (PutDeck (Deck._id d) (deckTitle s))) →
  let r := run (handleSubmit props env s) s in
  requests (trace_of r) =
    PutDeck (Deck._id d) (deckTitle s)
    :: map (cardRequest props (Deck.deck_id d)) (collectFlashcards s)
  ∧ (∀ card, Card.has_id card = false →
       cardRequest props (Deck.deck_id d) card =
         PostCard (username props) (Deck.deck_id d) (Card.front card) (Card.back card))
  ∧ (Rejected ∉ cardAnswers props env (Deck.deck_id d) 1 (collectFlashcards s) →
       alerts (trace_of r) = ["Deck updated!"]
       ∧ callbacks (trace_of r) = 1%nat
       ∧ state_after r = mkEditor "" [Card.blank] 0 false).
Proof.
  intros Hmode Hs Hput. cbn zeta.
  pose proof (upserted_edit props env s d Hmode Hput) as Hdeck.
  split; [|split].
  - rewrite (run_handleSubmit_upserted props env s _ _ Hs Hdeck). cbn zeta.
    destruct (promise_all _ _) as [[rs|e] w']; unfold trace_of; cbn [snd trace];
      change (Fetch ?r :: ?t) with (map Fetch [r] ++ t);
      rewrite <- app_assoc, !requests_sent; cbn; by rewrite app_nil_r.
  - intros card Hno. unfold cardRequest, Card.has_id in *.
    destruct (Card._id card) as [card__id|]; [by rewrite Hno|done].
  - intros Hcards.
    rewrite (run_handleSubmit_saved props env s _ _ Hs Hdeck Hcards).
    unfold state_after, trace_of, saved_message. cbn [snd editor trace].
    rewrite Hmode.
    change (Fetch ?r :: ?t) with (map Fetch [r] ++ t).
    by rewrite !callbacks_sent, !alerts_sent.
Qed.

(** ** Where the code departs from the specification *)

(** Both [handleSubmit] (for the cards) and [handleDeleteCard] await their
    fetches and never look at [ok].  A transport rejection is an exception and
    reaches the [catch]; an error status is not. *)

Lemma handleSubmit_card_transport_rejected props env s req deckId :
  submittable s →
  deck_upserted props env s req deckId →
  Rejected ∈ cardAnswers props env deckId 1 (collectFlashcards s) →
  let r := run (handleSubmit props env s) s in
  alerts (trace_of r) = [save_failed_message]
  ∧ state_after r = s
  ∧ callbacks (trace_of r) = 0%nat.
Proof.
  intros Hs Hdeck Hcards. cbn zeta.
  rewrite (run_handleSubmit_card_rejected props env s req deckId Hs Hdeck Hcards).
  unfold state_after, trace_of. cbn [snd editor trace].
  change (Fetch req :: ?t) with (map Fetch [req] ++ t).
  by rewrite !callbacks_sent, !alerts_sent.
Qed.

Lemma handleDeleteCard_transport_rejected env s card card__id :
  js_index (flashcardsData s) (currentCardIndex s) = Some card →
  Card._id card = Some card__id →
  truthy card__id = true →
  confirm_answer env = true →
  fetch_answer env 0 (DeleteCard card__id) = Rejected →
  let r := run (handleDeleteCard env s) s in
  alerts (trace_of r) = ["Failed to delete flashcard."]
  ∧ state_after r = s.
Proof.
  intros Hcur Hid Htruthy Hconfirm Hrej. cbn zeta.
  rewrite (run_handleDeleteCard_confirmed env s card card__id Hcur Hid Htruthy Hconfirm).
  by rewrite Hrej.
Qed.

(** C1. A card upsert that comes back with an error status does not stop the
    save.  In the create-mode scenario, with the deck created and the one
    card creation refused by status, [handleSubmit] announces success, resets
    the editor and calls [onSubmit]; the failure message is never shown. *)
Theorem handleSubmit_card_error_status :
  let r := run (handleSubmit Scenario.create_props Scenario.refusing_cards Scenario.capitals)
               Scenario.capitals in
  deck_upserted Scenario.create_props Scenario.refusing_cards Scenario.capitals
    (PostDeck "ana" "Capitals" "geo") (Some "d1")
  ∧ Forall failed (cardAnswers Scenario.create_props Scenario.refusing_cards (Some "d1") 1
                     (collectFlashcards Scenario.capitals))
  ∧ trace_of r = [Fetch (PostDeck "ana" "Capitals" "geo");
                  Fetch (PostCard "ana" (Some "d1") "France capital?" "Paris");
                  Alert "Deck and flashcards saved!";
                  OnSubmit]
  ∧ state_after r = mkEditor "" [Card.blank] 0 false.
Proof.
  cbn zeta. split; [|split; [|split]].
  - by apply (upserted_create Scenario.create_props Scenario.refusing_cards Scenario.capitals
                (Subject.mk "geo") (Response.mk true (WithDeck (Some "d1"))) (Some "d1")).
  - vm_compute. repeat constructor.
  - reflexivity.
  - reflexivity.
Qed.

(** C2. A delete that comes back with an error status is taken for a
    success.  With two persisted cards, the cursor on the first and the user
    confirming, [handleDeleteCard] removes the card from the list and tells
    the user nothing. *)
Theorem handleDeleteCard_error_status :
  let r := run (handleDeleteCard Scenario.refusing Scenario.two_persisted)
               Scenario.two_persisted in
  current_has_id Scenario.two_persisted
  ∧ confirm_answer Scenario.refusing = true
  ∧ failed (fetch_answer Scenario.refusing 0 (DeleteCard "c1"))
  ∧ trace_of r = [Confirm "Are you sure you want to delete this card?";
                  Fetch (DeleteCard "c1")]
  ∧ state_after r =
      mkEditor "Capitals" [Card.mk (Some "c2") "Spain capital?" "Madrid"] 0 false.
Proof.
  cbn zeta. split; [|split; [|split; [|split]]].
  - eexists. split; reflexivity.
  - reflexivity.
  - by constructor.
  - reflexivity.
  - reflexivity.
Qed.

(** C3. Opened on an edit target that has no cards, the editor has no cards
    either: the state is reachable, its list of cards is empty, and the
    cursor, 0, is not on a card (the current card is [undefined]). *)
Theorem opened_on_emptied_deck :
  let s := opened Scenario.emptied_props in
  reachable Scenario.emptied_props s
  ∧ flashcardsData s = []
  ∧ currentCardIndex s = 0
  ∧ ¬ cursor_valid s
  ∧ js_index (flashcardsData s) (currentCardIndex s) = None.
Proof.
  cbn zeta. split; [|split; [|split; [|split]]].
  - constructor.
  - reflexivity.
  - reflexivity.
  - unfold cursor_valid. cbn. lia.
  - reflexivity.
Qed.

(** ** The claims on the scenarios *)

Lemma submittable_capitals : submittable Scenario.capitals.
Proof. split; vm_compute; discriminate. Defined.

Lemma submittable_edited : submittable Scenario.edited.
Proof. split; vm_compute; discriminate. Defined.

(** Delete on a card that was never saved. *)
Lemma handleDeleteCard_gated_witness :
  let s := Scenario.capitals in
  let r := run (handleDeleteCard Scenario.accepting s) s in
  (¬ current_has_id s ∨ confirm_answer Scenario.accepting = false)
  ∧ requests (trace_of r) = []
  ∧ state_after r = s.
Proof.
  assert (¬ current_has_id Scenario.capitals) as Hno.
  { intros (card & Hcur & Hid). vm_compute in Hcur. injection Hcur as <-. discriminate Hid. }
  split; [left; exact Hno|].
  apply (handleDeleteCard_gated Scenario.accepting Scenario.capitals). left. exact Hno.
Defined.

(** Delete on the only card, persisted as "c1", with an accepting store. *)
Lemma handleDeleteCard_last_card_witness :
  let s := Scenario.one_persisted in
  let card := Card.mk (Some "c1") "France capital?" "Paris" in
  let s' := state_after (run (handleDeleteCard Scenario.accepting s) s) in
  (flashcardsData s = [card]
   ∧ cursor_valid s
   ∧ Card._id card = Some "c1"
   ∧ Card.has_id card = true
   ∧ confirm_answer Scenario.accepting = true
   ∧ succeeded (fetch_answer Scenario.accepting 0 (DeleteCard "c1")))
  ∧ flashcardsData s' = [Card.mk None "" ""]
  ∧ currentCardIndex s' = 0
  ∧ isFlipped s' = false.
Proof.
  cbn zeta.
  assert (cursor_valid Scenario.one_persisted) as Hcursor.
  { unfold cursor_valid. simpl. lia. }
  assert (succeeded (fetch_answer Scenario.accepting 0 (DeleteCard "c1"))) as Hok.
  { eexists. split; reflexivity. }
  split.
  - split; [reflexivity|]. split; [exact Hcursor|]. split; [reflexivity|].
    split; [reflexivity|]. split; [reflexivity|exact Hok].
  - exact (handleDeleteCard_last_card Scenario.accepting Scenario.one_persisted
             (Card.mk (Some "c1") "France capital?" "Paris") "c1"
             eq_refl Hcursor eq_refl eq_refl eq_refl Hok).
Defined.

(** Save with a title of blanks. *)
Lemma handleSubmit_validation_witness :
  let s := Scenario.blanks in
  let r := run (handleSubmit Scenario.create_props Scenario.accepting s) s in
  trim (deckTitle s) = ""
  ∧ requests (trace_of r) = []
  ∧ (∃ msg, alerts (trace_of r) = [msg])
  ∧ state_after r = s.
Proof.
  cbn zeta. split; [reflexivity|].
  apply (handleSubmit_validation Scenario.create_props Scenario.accepting Scenario.blanks).
  left. reflexivity.
Defined.

(** The create-mode scenario against a store that refuses the deck. *)
Lemma handleSubmit_deck_upsert_failed_witness :
  let s := Scenario.capitals in
  let req := PostDeck "ana" "Capitals" "geo" in
  let r := run (handleSubmit Scenario.create_props Scenario.refusing s) s in
  (submittable s ∧ deck_upsert_failed Scenario.create_props Scenario.refusing s req)
  ∧ requests (trace_of r) = [req]
  ∧ Forall (fun req' => is_card_upsert req' = false) (requests (trace_of r))
  ∧ alerts (trace_of r) = [save_failed_message]
  ∧ state_after r = s
  ∧ callbacks (trace_of r) = 0%nat.
Proof.
  cbn zeta.
  assert (deck_upsert_failed Scenario.create_props Scenario.refusing Scenario.capitals
            (PostDeck "ana" "Capitals" "geo")) as Hfail.
  { apply (upsert_failed_create Scenario.create_props Scenario.refusing Scenario.capitals
             (Subject.mk "geo")); [reflexivity|reflexivity|].
    apply failed_status. reflexivity. }
  split; [split; [exact submittable_capitals|exact Hfail]|].
  exact (handleSubmit_deck_upsert_failed Scenario.create_props Scenario.refusing Scenario.capitals
           (PostDeck "ana" "Capitals" "geo") submittable_capitals Hfail).
Defined.

(** The create-mode scenario of the specification against an accepting
    store: one deck creation, then one card creation under the returned deck
    id. *)
Lemma handleSubmit_saved_witness :
  let s := Scenario.capitals in
  let req := PostDeck "ana" "Capitals" "geo" in
  let r := run (handleSubmit Scenario.create_props Scenario.accepting s) s in
  (submittable s
   ∧ deck_upserted Scenario.create_props Scenario.accepting s req (Some "d1")
   ∧ Rejected ∉ cardAnswers Scenario.create_props Scenario.accepting (Some "d1") 1
                  (collectFlashcards s))
  ∧ state_after r = mkEditor "" [Card.mk None "" ""] 0 false
  ∧ callbacks (trace_of r) = 1%nat
  ∧ ∃ cardReqs,
      requests (trace_of r) = req :: cardReqs
      ∧ Forall2 (upsert_request Scenario.create_props (Some "d1"))
                (filter (fun card => valid card = true) (flashcardsData s)) cardReqs.
Proof.
  cbn zeta.
  assert (deck_upserted Scenario.create_props Scenario.accepting Scenario.capitals
            (PostDeck "ana" "Capitals" "geo") (Some "d1")) as Hdeck.
  { apply (upserted_create Scenario.create_props Scenario.accepting Scenario.capitals
             (Subject.mk "geo") (Response.mk true (WithDeck (Some "d1"))) (Some "d1"));
      reflexivity. }
  assert (Rejected ∉ cardAnswers Scenario.create_props Scenario.accepting (Some "d1") 1
                       (collectFlashcards Scenario.capitals)) as Hcards.
  { vm_compute. intros Hin. inversion Hin as [|? ? ? Hin']. inversion Hin'. }
  split; [split; [exact submittable_capitals|split; [exact Hdeck|exact Hcards]]|].
  exact (handleSubmit_saved Scenario.create_props Scenario.accepting Scenario.capitals
           (PostDeck "ana" "Capitals" "geo") (Some "d1") submittable_capitals Hdeck Hcards).
Defined.

(** Save in edit mode on a target whose [_id] is "A" and whose [deck_id] is
    absent: the title goes to "A", the new card is created under no deck id,
    and the save reports success. *)
Lemma handleSubmit_edit_deck_id_witness :
  let s := Scenario.edited in
  let r := run (handleSubmit Scenario.edit_props Scenario.accepting s) s in
  (editDeck Scenario.edit_props = Some Scenario.target
   ∧ submittable s
   ∧ succeeded (fetch_answer Scenario.accepting 0 (PutDeck "A" "Capitals")))
  ∧ requests (trace_of r)
    = [PutDeck "A" "Capitals";
       PutCard "c1" "France capital?" "Paris";
       PostCard "ana" None "Spain capital?" "Madrid"]
  ∧ alerts (trace_of r) = ["Deck updated!"]
  ∧ callbacks (trace_of r) = 1%nat.
Proof.
  cbn zeta.
  assert (succeeded (fetch_answer Scenario.accepting 0 (PutDeck "A" "Capitals"))) as Hput.
  { eexists. split; reflexivity. }
  split; [split; [reflexivity|split; [exact submittable_edited|exact Hput]]|].
  destruct (handleSubmit_edit_deck_id Scenario.edit_props Scenario.accepting Scenario.edited
              Scenario.target eq_refl submittable_edited Hput) as (Hreqs & _ & Hdone).
  split; [exact Hreqs|].
  assert (Rejected ∉ cardAnswers Scenario.edit_props Scenario.accepting
                       (Deck.deck_id Scenario.target) 1
                       (collectFlashcards Scenario.edited)) as Hcards.
  { vm_compute. intros Hin.
    inversion Hin as [|? ? ? Hin']. inversion Hin' as [|? ? ? Hin'']. inversion Hin''. }
  destruct (Hdone Hcards) as (Halerts & Hcalls & _).
  split; [exact Halerts|exact Hcalls].
Defined.

(** * Further properties of the component *)

(** ** Flip and navigation *)

(** X1. Flipping twice gives back the state, whatever it is: Flip touches
    [isFlipped] only and is its own inverse. *)
Theorem handleFlip_twice s env1 env2 :
  step (step s (Flip, env1)) (Flip, env2) = s.
Proof.
  rewrite !step_Flip. cbn. rewrite negb_involutive. apply editor_eta.
Qed.

Lemma steps_snoc s acts act : steps (steps s acts) [act] = steps s (acts ++ [act]).
Proof. unfold steps. by rewrite foldl_app. Qed.

Lemma steps_app s acts1 acts2 : steps s (acts1 ++ acts2) = steps (steps s acts1) acts2.
Proof. unfold steps. by rewrite foldl_app. Qed.

(** X2. Next pressed [k] times from a cursor on a card: the cursor ends on
    the [k]-th card further on, or on the last card when there are fewer
    than [k] cards left; the cards and the title are as before. *)
Theorem handleNext_iterated s env k :
  cursor_valid s →
  let s' := steps s (replicate k (Next, env)) in
  currentCardIndex s'
    = Z.min (currentCardIndex s + Z.of_nat k) (Z.of_nat (length (flashcardsData s)) - 1)
  ∧ flashcardsData s' = flashcardsData s
  ∧ deckTitle s' = deckTitle s.
Proof.
  unfold cursor_valid. cbn zeta. revert s.
  induction k as [|k IH]; intros s Hc.
  - cbn. repeat split. lia.
  - cbn [replicate steps foldl]. fold (steps (step s (Next, env)) (replicate k (Next, env))).
    rewrite step_Next. case_decide as Hlast.
    + destruct (IH (mkEditor (deckTitle s) (flashcardsData s) (currentCardIndex s + 1) false))
        as (Hi & Hcards & Htitle); [cbn; lia|].
      cbn in Hi, Hcards, Htitle. rewrite Hi, Hcards, Htitle. repeat split. lia.
    + destruct (IH s Hc) as (Hi & Hcards & Htitle).
      rewrite Hi, Hcards, Htitle. repeat split. lia.
Qed.

(** X3. Previous pressed [k] times from a cursor on a card: the cursor ends
    on the [k]-th card before, or on the first card when there are fewer than
    [k] cards before it; the cards and the title are as before. *)
Theorem handlePrev_iterated s env k :
  cursor_valid s →
  let s' := steps s (replicate k (Prev, env)) in
  currentCardIndex s' = Z.max (currentCardIndex s - Z.of_nat k) 0
  ∧ flashcardsData s' = flashcardsData s
  ∧ deckTitle s' = deckTitle s.
Proof.
  unfold cursor_valid. cbn zeta. revert s.
  induction k as [|k IH]; intros s Hc.
  - cbn. repeat split. lia.
  - cbn [replicate steps foldl]. fold (steps (step s (Prev, env)) (replicate k (Prev, env))).
    rewrite step_Prev. case_decide as Hfirst.
    + destruct (IH (mkEditor (deckTitle s) (flashcardsData s) (currentCardIndex s - 1) false))
        as (Hi & Hcards & Htitle); [cbn; lia|].
      cbn in Hi, Hcards, Htitle. rewrite Hi, Hcards, Htitle. repeat split. lia.
    + destruct (IH s Hc) as (Hi & Hcards & Htitle).
      rewrite Hi, Hcards, Htitle. repeat split. lia.
Qed.

(** X4. Next and then Previous, from a cursor on a card that is not the
    last: the editor is back on the same card, front shown, with the same
    cards and title. *)
Theorem handleNext_then_handlePrev s env1 env2 :
  0 ≤ currentCardIndex s < Z.of_nat (length (flashcardsData s)) - 1 →
  step (step s (Next, env1)) (Prev, env2)
    = mkEditor (deckTitle s) (flashcardsData s) (currentCardIndex s) false.
Proof.
  intros Hc. rewrite step_Next. case_decide; [|lia].
  rewrite step_Prev. cbn. case_decide; [|lia].
  f_equal. lia.
Qed.

(** ** The cursor and the card under it *)

Lemma js_index_None {A} (arr : list A) (i : Z) :
  js_index arr i = None ↔ ¬ (0 ≤ i < Z.of_nat (length arr)).
Proof.
  unfold js_index. case_decide as Hi.
  - rewrite lookup_ge_None. lia.
  - split; [lia|done].
Qed.

Lemma js_index_middle {A} (before after : list A) (x : A) :
  js_index (before ++ x :: after) (Z.of_nat (length before)) = Some x.
Proof.
  unfold js_index. case_decide; [|lia].
  rewrite Nat2Z.id. apply list_lookup_middle. done.
Qed.

Lemma splice1_middle {A} (before after : list A) (x : A) :
  splice1 (before ++ x :: after) (Z.of_nat (length before)) = before ++ after.
Proof.
  unfold splice1. case_decide; [lia|].
  rewrite length_app. cbn [length].
  replace (Z.to_nat (Z.min _ _)) with (length before) by lia.
  apply delete_middle.
Qed.

(** ** Edit *)

Lemma alter_middle {A} (f : A → A) (before after : list A) (x : A) :
  alter f (length before) (before ++ x :: after) = before ++ f x :: after.
Proof.
  replace (length before) with (length before + 0)%nat at 1 by lia.
  by rewrite alter_app_r.
Qed.

Lemma step_EditFront_alter s env value :
  step s (EditFront value, env) =
    match js_index (flashcardsData s) (currentCardIndex s) with
    | Some _ =>
        mkEditor (deckTitle s)
          (alter (with_front value) (Z.to_nat (currentCardIndex s)) (flashcardsData s))
          (currentCardIndex s) (isFlipped s)
    | None => s
    end.
Proof.
  unfold step, handler_of, handleChangeFront. cbn [fst snd].
  by destruct (js_index _ _).
Qed.

Lemma step_EditBack_alter s env value :
  step s (EditBack value, env) =
    match js_index (flashcardsData s) (currentCardIndex s) with
    | Some _ =>
        mkEditor (deckTitle s)
          (alter (with_back value) (Z.to_nat (currentCardIndex s)) (flashcardsData s))
          (currentCardIndex s) (isFlipped s)
    | None => s
    end.
Proof.
  unfold step, handler_of, handleChangeBack. cbn [fst snd].
  by destruct (js_index _ _).
Qed.

Lemma js_index_alter {A} (f : A → A) (arr : list A) (i : Z) :
  js_index (alter f (Z.to_nat i) arr) i = f <$> js_index arr i.
Proof.
  unfold js_index. case_decide; [|done]. apply list_lookup_alter_eq.
Qed.

(** X5. Typing in the Front or the Back field with the cursor on a card
    rewrites that side of that card and nothing else: the cards before and
    after it, its other side and its id, the cursor, the flip and the title
    are kept, and nothing reaches the outside. *)
Theorem handleChange_current s before card after value :
  flashcardsData s = before ++ card :: after →
  currentCardIndex s = Z.of_nat (length before) →
  run (handleChangeFront s value) s
    = (Normal tt,
       mkWorld (mkEditor (deckTitle s)
                  (before ++ Card.mk (Card._id card) value (Card.back card) :: after)
                  (currentCardIndex s) (isFlipped s)) [] 0)
  ∧ run (handleChangeBack s value) s
    = (Normal tt,
       mkWorld (mkEditor (deckTitle s)
                  (before ++ Card.mk (Card._id card) (Card.front card) value :: after)
                  (currentCardIndex s) (isFlipped s)) [] 0).
Proof.
  intros Hcards Hcur.
  unfold handleChangeFront, handleChangeBack.
  rewrite Hcards, Hcur, js_index_middle, Nat2Z.id. run_handler.
  by rewrite !alter_middle, Hcur.
Qed.

(** X6. With the cursor off the cards, the two change handlers and the
    delete handler throw a TypeError before doing anything; with the cursor
    on a card none of them throws. *)
Theorem handlers_throw_off_cursor env s value :
  ((run (handleChangeFront s value) s).1 = Throw TypeError ↔ ¬ cursor_valid s)
  ∧ ((run (handleChangeBack s value) s).1 = Throw TypeError ↔ ¬ cursor_valid s)
  ∧ ((run (handleDeleteCard env s) s).1 = Throw TypeError ↔ ¬ cursor_valid s)
  ∧ (¬ cursor_valid s →
       run (handleChangeFront s value) s = (Throw TypeError, mkWorld s [] 0)
       ∧ run (handleChangeBack s value) s = (Throw TypeError, mkWorld s [] 0)
       ∧ run (handleDeleteCard env s) s = (Throw TypeError, mkWorld s [] 0))
  ∧ (cursor_valid s →
       (run (handleChangeFront s value) s).1 = Normal tt
       ∧ (run (handleChangeBack s value) s).1 = Normal tt
       ∧ (run (handleDeleteCard env s) s).1 = Normal tt).
Proof.
  unfold cursor_valid.
  pose proof (js_index_None (flashcardsData s) (currentCardIndex s)) as Hnone.
  assert ((run (handleDeleteCard env s) s).1 = Normal tt
          ∨ js_index (flashcardsData s) (currentCardIndex s) = None) as Hdel.
  { unfold handleDeleteCard.
    destruct (js_index _ _) as [card|]; [left|by right].
    destruct (Card._id card) as [card__id|]; [|done].
    destruct (truthy card__id); [|done].
    run_handler. destruct (confirm_answer env); [|done]. cbn.
    by destruct (fetch_answer env 0 (DeleteCard card__id)). }
  unfold handleChangeFront, handleChangeBack in *.
  unfold handleDeleteCard in *.
  destruct (js_index (flashcardsData s) (currentCardIndex s)) as [card|] eqn:Hcur.
  - assert (0 ≤ currentCardIndex s < Z.of_nat (length (flashcardsData s))) as Hin.
    { by eapply js_index_Some. }
    destruct Hdel as [Hdel|?]; [|done].
    repeat split; try done; try (intros ?; exfalso; tauto).
    intros Hthrow. rewrite Hdel in Hthrow. discriminate.
  - assert (¬ 0 ≤ currentCardIndex s < Z.of_nat (length (flashcardsData s))) as Hout.
    { by apply Hnone. }
    repeat split; try done; intros ?; exfalso; tauto.
Qed.

(** X7. The two change handlers commute, and of two changes to the same side
    the later one wins; this holds in every state. *)
Theorem handleChange_compose s env1 env2 a b :
  step (step s (EditFront a, env1)) (EditBack b, env2)
    = step (step s (EditBack b, env2)) (EditFront a, env1)
  ∧ step (step s (EditFront a, env1)) (EditFront b, env2) = step s (EditFront b, env2)
  ∧ step (step s (EditBack a, env1)) (EditBack b, env2) = step s (EditBack b, env2).
Proof.
  rewrite !step_EditFront_alter, !step_EditBack_alter.
  destruct (js_index (flashcardsData s) (currentCardIndex s)) as [card|] eqn:Hcur.
  - cbn [flashcardsData currentCardIndex deckTitle isFlipped].
    rewrite !js_index_alter, Hcur.
    cbn [fmap option_fmap option_map flashcardsData currentCardIndex deckTitle isFlipped].
    rewrite !list_alter_alter_eq. repeat split; f_equal; by apply list_alter_ext.
  - by rewrite Hcur.
Qed.

(** X8. The change handlers never touch an id: after either of them the
    cards carry the same ids, in the same order, as before. *)
Theorem handleChange_keeps_ids s env value :
  map Card._id (flashcardsData (step s (EditFront value, env)))
    = map Card._id (flashcardsData s)
  ∧ map Card._id (flashcardsData (step s (EditBack value, env)))
    = map Card._id (flashcardsData s).
Proof.
  rewrite step_EditFront_alter, step_EditBack_alter.
  destruct (js_index _ _); [|done]. cbn [flashcardsData].
  split.
  - change (map Card._id ?l) with (Card._id <$> l).
    rewrite (list_fmap_alter Card._id (with_front value) id).
    + by rewrite list_alter_id.
    + by apply Forall_forall.
  - change (map Card._id ?l) with (Card._id <$> l).
    rewrite (list_fmap_alter Card._id (with_back value) id).
    + by rewrite list_alter_id.
    + by apply Forall_forall.
Qed.

(** ** Add and delete *)

(** X9. A card that was just added cannot be deleted: after AddCard the
    delete handler returns at its first guard, in every state and whatever
    the user and the store would answer; no dialog is shown and no request is
    sent. *)
Theorem handleAddFlashcard_then_handleDeleteCard s env env' :
  let s1 := step s (AddCard, env) in
  run (handleDeleteCard env' s1) s1 = (Normal tt, mkWorld s1 [] 0).
Proof.
  cbn zeta. rewrite step_AddCard. unfold handleDeleteCard.
  cbn [flashcardsData currentCardIndex]. by rewrite js_index_middle.
Qed.

(** X10. Delete on a card that has an id, the user confirming and the fetch
    not rejected, when the card is not the only one: exactly that card
    leaves the list, the cards before and after it keep their order, the
    cursor moves to the card before it (or stays on 0), the front is shown,
    the title is kept; the outside sees one confirmation and then one DELETE
    for the id of that card. *)
Theorem handleDeleteCard_removes_current env s before card after card__id :
  flashcardsData s = before ++ card :: after →
  currentCardIndex s = Z.of_nat (length before) →
  before ++ after ≠ [] →
  Card._id card = Some card__id →
  truthy card__id = true →
  confirm_answer env = true →
  fetch_answer env 0 (DeleteCard card__id) ≠ Rejected →
  run (handleDeleteCard env s) s
    = (Normal tt,
       mkWorld (mkEditor (deckTitle s) (before ++ after)
                  (Z.max 0 (Z.of_nat (length before) - 1)) false)
               [Confirm "Are you sure you want to delete this card?";
                Fetch (DeleteCard card__id)] 1).
Proof.
  intros Hcards Hcur Hrest Hid Htruthy Hconfirm Hfetch.
  rewrite (run_handleDeleteCard_confirmed env s card card__id); try done.
  - destruct (fetch_answer env 0 (DeleteCard card__id)); [|done].
    rewrite Hcards, Hcur, splice1_middle.
    case_decide as Hlen; [done|].
    destruct (before ++ after); [done|]. cbn in Hlen. lia.
  - rewrite Hcards, Hcur. apply js_index_middle.
Qed.

(** X11. Whatever the state and the answers, the delete handler sends at
    most one request; when it sends one, it is the DELETE for the id of the
    card under the cursor, and it comes right after a confirmation that the
    user accepted. *)
Theorem handleDeleteCard_one_request env s :
  let r := run (handleDeleteCard env s) s in
  requests (trace_of r) = []
  ∨ ∃ card card__id rest,
      js_index (flashcardsData s) (currentCardIndex s) = Some card
      ∧ Card._id card = Some card__id
      ∧ confirm_answer env = true
      ∧ trace_of r = Confirm "Are you sure you want to delete this card?"
                     :: Fetch (DeleteCard card__id) :: rest
      ∧ requests (trace_of r) = [DeleteCard card__id].
Proof.
  cbn zeta.
  destruct (js_index (flashcardsData s) (currentCardIndex s)) as [card|] eqn:Hcur.
  2: { left. unfold handleDeleteCard. by rewrite Hcur. }
  destruct (Card._id card) as [card__id|] eqn:Hid.
  2: { left. unfold handleDeleteCard. by rewrite Hcur, Hid. }
  destruct (truthy card__id) eqn:Htruthy.
  2: { left. unfold handleDeleteCard. by rewrite Hcur, Hid, Htruthy. }
  destruct (confirm_answer env) eqn:Hconfirm.
  2: { left. unfold handleDeleteCard. rewrite Hcur, Hid, Htruthy. run_handler.
       by rewrite Hconfirm. }
  right. exists card, card__id.
  rewrite (run_handleDeleteCard_confirmed env s card card__id Hcur Hid Htruthy Hconfirm).
  destruct (fetch_answer env 0 (DeleteCard card__id)); eexists; repeat split; done.
Qed.

(** ** What is collected *)

Lemma trimStart_empty s : trimStart s = "" ↔ allWhiteSpace s = true.
Proof.
  induction s as [|a s IH]; [done|]. cbn.
  destruct (isWhiteSpace a); [done|]. cbn. split; discriminate.
Qed.

Lemma trimEnd_empty s : trimEnd s = "" ↔ allWhiteSpace s = true.
Proof.
  induction s as [|a s IH]; [done|]. cbn.
  destruct (trimEnd s) eqn:Hend.
  - destruct (isWhiteSpace a); cbn; [tauto|]. split; discriminate.
  - split; [discriminate|]. intros [_ Hs]%andb_true_iff.
    apply IH in Hs. discriminate.
Qed.

Lemma allWhiteSpace_trimStart s : allWhiteSpace (trimStart s) = allWhiteSpace s.
Proof.
  induction s as [|a s IH]; [done|]. cbn.
  destruct (isWhiteSpace a) eqn:Ha; [done|]. cbn. by rewrite Ha.
Qed.

Lemma trim_empty s : trim s = "" ↔ allWhiteSpace s = true.
Proof. unfold trim. by rewrite trimEnd_empty, allWhiteSpace_trimStart. Qed.

(** X12. A card is collected for saving exactly when it is in the editor and
    each of its two sides holds at least one character that is not white
    space. *)
Theorem collectFlashcards_not_blank s card :
  card ∈ collectFlashcards s
  ↔ card ∈ flashcardsData s
    ∧ allWhiteSpace (Card.front card) = false
    ∧ allWhiteSpace (Card.back card) = false.
Proof.
  by rewrite elem_of_collectFlashcards, valid_true, !trim_empty, !not_true_iff_false.
Qed.

(** X13. Flip, Previous, Next and AddCard leave what a Save would collect as
    it is; in particular the blank card that AddCard appends is never
    collected. *)
Theorem collectFlashcards_navigation s op env :
  op ∈ [Flip; Prev; Next; AddCard] →
  collectFlashcards (step s (op, env)) = collectFlashcards s.
Proof.
  intros Hop. repeat (apply elem_of_cons in Hop as [->|Hop]).
  - by rewrite step_Flip.
  - rewrite step_Prev. by case_decide.
  - rewrite step_Next. by case_decide.
  - rewrite step_AddCard. unfold collectFlashcards. cbn [flashcardsData].
    rewrite filter_app. rewrite (filter_cons_False _ Card.blank) by done.
    by rewrite filter_nil, app_nil_r.
  - by apply elem_of_nil in Hop.
Qed.

(** ** Save, in every case *)

Lemma run_handleSubmit_no_subject props env s :
  submittable s →
  editDeck props = None →
  subject props = None →
  run (handleSubmit props env s) s =
    (Normal tt,
     mkWorld s [ConsoleError "Error saving deck and flashcards:"; Alert save_failed_message] 0).
Proof.
  intros [Htitle Hcards] Hmode Hsub. apply truthy_true in Htitle.
  unfold handleSubmit. rewrite Htitle. cbn [negb].
  case_decide as Hlen; [by apply nil_length_inv in Hlen|].
  by rewrite Hmode, Hsub.
Qed.

Lemma run_handleSubmit_unusable_body props env s sub res :
  submittable s →
  editDeck props = None →
  subject props = Some sub →
  fetch_answer env 0 (PostDeck (username props) (deckTitle s) (Subject.id sub)) = Fulfilled res →
  Response.ok res = true →
  Response.json res = NotJson ∨ Response.json res = NoDeck →
  run (handleSubmit props env s) s =
    (Normal tt,
     mkWorld s [Fetch (PostDeck (username props) (deckTitle s) (Subject.id sub));
                ConsoleError "Error saving deck and flashcards:";
                Alert save_failed_message] 1).
Proof.
  intros [Htitle Hcards] Hmode Hsub Hres Hok Hjson. apply truthy_true in Htitle.
  unfold handleSubmit. rewrite Htitle. cbn [negb].
  case_decide as Hlen; [by apply nil_length_inv in Hlen|].
  rewrite Hmode, Hsub. run_handler. rewrite Hres. cbn. rewrite Hok. cbn.
  by destruct Hjson as [-> | ->].
Qed.

Lemma deck_upserted_is_deck_upsert props env s req deckId :
  deck_upserted props env s req deckId → is_deck_upsert req = true.
Proof. by intros []. Qed.

(** Every run of [handleSubmit] ends in one of the five ways. *)
Lemma run_handleSubmit_outcome props env s :
  save_outcome props s (run (handleSubmit props env s) s).
Proof.
  destruct (decide (trim (deckTitle s) = "")) as [Htitle|Htitle].
  { rewrite (run_handleSubmit_no_title props env s Htitle).
    apply save_refused. by left. }
  destruct (collectFlashcards s) as [|card0 cards0] eqn:Hcollect.
  { rewrite (run_handleSubmit_no_cards props env s Htitle Hcollect).
    apply save_refused. right. by left. }
  assert (submittable s) as Hs.
  { split; [done|]. by rewrite Hcollect. }
  assert (∀ req deckId, deck_upserted props env s req deckId →
            save_outcome props s (run (handleSubmit props env s) s)) as Hupserted.
  { intros req deckId Hdeck.
    pose proof (deck_upserted_is_deck_upsert _ _ _ _ _ Hdeck) as Hreq.
    rewrite (run_handleSubmit_upserted props env s req deckId Hs Hdeck). cbn zeta.
    destruct (promise_all _ _) as [[rs|e] w'].
    - by apply save_done.
    - by apply save_cards_failed. }
  assert (∀ req, deck_upsert_failed props env s req →
            save_outcome props s (run (handleSubmit props env s) s)) as Hfailed.
  { intros req Hfail.
    rewrite (run_handleSubmit_deck_failed props env s req Hs Hfail).
    apply save_deck_failed. by destruct Hfail. }
  clear Hcollect.
  destruct (editDeck props) as [d|] eqn:Hmode.
  - destruct (fetch_answer env 0 (PutDeck (Deck._id d) (deckTitle s))) as [res|] eqn:Hres.
    + destruct (Response.ok res) eqn:Hok.
      * eapply Hupserted, upserted_edit; [done|]. rewrite Hres. by exists res.
      * eapply Hfailed, upsert_failed_edit; [done|]. rewrite Hres. by constructor.
    + eapply Hfailed, upsert_failed_edit; [done|]. rewrite Hres. constructor.
  - destruct (subject props) as [sub|] eqn:Hsub.
    2: { rewrite (run_handleSubmit_no_subject props env s Hs Hmode Hsub).
         apply save_not_sent. }
    destruct (fetch_answer env 0 (PostDeck (username props) (deckTitle s) (Subject.id sub)))
      as [res|] eqn:Hres.
    + destruct (Response.ok res) eqn:Hok.
      * destruct (Response.json res) as [| |deck_id] eqn:Hjson.
        -- rewrite (run_handleSubmit_unusable_body props env s sub res); try done; [|by left].
           by apply save_deck_failed.
        -- rewrite (run_handleSubmit_unusable_body props env s sub res); try done; [|by right].
           by apply save_deck_failed.
        -- by eapply Hupserted, upserted_create.
      * eapply Hfailed, upsert_failed_create; [done|done|]. rewrite Hres. by constructor.
    + eapply Hfailed, upsert_failed_create; [done|done|]. rewrite Hres. constructor.
Qed.

Lemma cardRequest_is_card_upsert props deckId card :
  is_card_upsert (cardRequest props deckId card) = true.
Proof.
  unfold cardRequest. destruct (Card._id card) as [card__id|]; [|done].
  by destruct (truthy card__id).
Qed.

Lemma requests_cons_Fetch req t : requests (Fetch req :: t) = req :: requests t.
Proof. done. Qed.

Lemma alerts_cons_Fetch req t : alerts (Fetch req :: t) = alerts t.
Proof. done. Qed.

Lemma callbacks_cons_Fetch req t : callbacks (Fetch req :: t) = callbacks t.
Proof. done. Qed.

(** The observers on the three tails a trace of [handleSubmit] can have. *)
Lemma observe_failed_tail reqs :
  let t := map Fetch reqs ++ [ConsoleError "Error saving deck and flashcards:";
                              Alert save_failed_message] in
  requests t = reqs ∧ alerts t = [save_failed_message] ∧ callbacks t = 0%nat.
Proof.
  cbn zeta. rewrite requests_sent, alerts_sent, callbacks_sent. cbn.
  by rewrite app_nil_r.
Qed.

Lemma observe_saved_tail reqs msg :
  let t := map Fetch reqs ++ [Alert msg; OnSubmit] in
  requests t = reqs ∧ alerts t = [msg] ∧ callbacks t = 1%nat.
Proof.
  cbn zeta. rewrite requests_sent, alerts_sent, callbacks_sent. cbn.
  by rewrite app_nil_r.
Qed.



(** X16. What a Save sends, in every case: nothing; or one deck request
    and nothing else; or one deck request followed by the requests of all the
    collected cards, in the order of the editor.  It never sends part of the
    card requests, never a second deck request, and never a DELETE. *)
Theorem handleSubmit_requests props env s :
  let sent := requests (trace_of (run (handleSubmit props env s) s)) in
  (sent = []
   ∨ (∃ req, is_deck_upsert req = true ∧ sent = [req])
   ∨ (∃ req deckId, is_deck_upsert req = true
        ∧ sent = req :: map (cardRequest props deckId) (collectFlashcards s)))
  ∧ Forall (fun req => ∀ card__id, req ≠ DeleteCard card__id) sent.
Proof.
  cbn zeta.
  destruct (run_handleSubmit_outcome props env s)
    as [msg _| |req Hreq|req deckId Hreq|req deckId Hreq];
    unfold trace_of; cbn [fst snd trace].
  - split; [by left|]. constructor.
  - split; [by left|]. constructor.
  - split; [right; left; by exists req|].
    apply Forall_singleton. intros card__id ->. discriminate.
  - rewrite requests_cons_Fetch.
    destruct (observe_failed_tail (map (cardRequest props deckId) (collectFlashcards s)))
      as (-> & _).
    split; [do 2 right; by exists req, deckId|].
    constructor; [intros card__id ->; discriminate|].
    apply Forall_fmap, Forall_forall. intros card _ card__id Heq.
    pose proof (cardRequest_is_card_upsert props deckId card) as Hcard.
    cbn in Heq. rewrite Heq in Hcard. discriminate.
  - rewrite requests_cons_Fetch.
    destruct (observe_saved_tail (map (cardRequest props deckId) (collectFlashcards s))
                (saved_message props)) as (-> & _).
    split; [do 2 right; by exists req, deckId|].
    constructor; [intros card__id ->; discriminate|].
    apply Forall_fmap, Forall_forall. intros card _ card__id Heq.
    pose proof (cardRequest_is_card_upsert props deckId card) as Hcard.
    cbn in Heq. rewrite Heq in Hcard. discriminate.
Qed.

(** ** Save, its edges *)

(** X17. A card request rejected by the transport stops the save, but not
    the other requests: with the deck upsert through and at least one card
    request rejected, the deck request and every card request have been
    sent nonetheless; the user gets the failure message, the editor is as it
    was, [onSubmit] is not called. *)
Theorem handleSubmit_card_rejected_all_sent props env s req deckId :
  submittable s →
  deck_upserted props env s req deckId →
  Rejected ∈ cardAnswers props env deckId 1 (collectFlashcards s) →
  let r := run (handleSubmit props env s) s in
  requests (trace_of r) = req :: map (cardRequest props deckId) (collectFlashcards s)
  ∧ alerts (trace_of r) = [save_failed_message]
  ∧ callbacks (trace_of r) = 0%nat
  ∧ state_after r = s.
Proof.
  intros Hs Hdeck Hcards. cbn zeta.
  rewrite (run_handleSubmit_card_rejected props env s req deckId Hs Hdeck Hcards).
  unfold state_after, trace_of. cbn [snd editor trace].
  rewrite requests_cons_Fetch, alerts_cons_Fetch, callbacks_cons_Fetch.
  by destruct (observe_failed_tail (map (cardRequest props deckId) (collectFlashcards s)))
    as (-> & -> & ->).
Qed.

(** X18. Save in create mode without the [subject] prop, past the two
    checks: reading [subject.id] throws inside the [try], so no request is
    sent at all, the user gets the failure message and the editor is as it
    was. *)
Theorem handleSubmit_without_subject props env s :
  submittable s →
  editDeck props = None →
  subject props = None →
  let r := run (handleSubmit props env s) s in
  requests (trace_of r) = []
  ∧ alerts (trace_of r) = [save_failed_message]
  ∧ callbacks (trace_of r) = 0%nat
  ∧ state_after r = s.
Proof.
  intros Hs Hmode Hsub. cbn zeta.
  by rewrite (run_handleSubmit_no_subject props env s Hs Hmode Hsub).
Qed.

(** X19. Save in create mode when the deck creation is answered with a
    success status but a body that is not JSON or has no [deck]: the deck
    request stays the only request, no card is sent, the user gets the
    failure message and the editor is as it was. *)
Theorem handleSubmit_unusable_body props env s sub res :
  submittable s →
  editDeck props = None →
  subject props = Some sub →
  fetch_answer env 0 (PostDeck (username props) (deckTitle s) (Subject.id sub)) = Fulfilled res →
  Response.ok res = true →
  Response.json res = NotJson ∨ Response.json res = NoDeck →
  let r := run (handleSubmit props env s) s in
  requests (trace_of r) = [PostDeck (username props) (deckTitle s) (Subject.id sub)]
  ∧ alerts (trace_of r) = [save_failed_message]
  ∧ callbacks (trace_of r) = 0%nat
  ∧ state_after r = s.
Proof.
  intros Hs Hmode Hsub Hres Hok Hjson. cbn zeta.
  by rewrite (run_handleSubmit_unusable_body props env s sub res Hs Hmode Hsub Hres Hok Hjson).
Qed.

(** X20. Save pressed again right after a successful save: the editor is
    blank by then, so the second run is refused by the title check; it sends
    nothing, whatever the store would answer, and leaves the blank editor. *)
Theorem handleSubmit_twice props env env' s req deckId :
  submittable s →
  deck_upserted props env s req deckId →
  Rejected ∉ cardAnswers props env deckId 1 (collectFlashcards s) →
  let s1 := state_after (run (handleSubmit props env s) s) in
  run (handleSubmit props env' s1) s1
    = (Normal tt, mkWorld (mkEditor "" [Card.blank] 0 false) [Alert "Deck title is required!"] 0).
Proof.
  intros Hs Hdeck Hcards. cbn zeta.
  rewrite (run_handleSubmit_saved props env s req deckId Hs Hdeck Hcards).
  unfold state_after. cbn [snd editor].
  by apply run_handleSubmit_no_title.
Qed.

(** ** Opening *)

Lemma copy_cards cards :
  map (fun card => Card.mk (Card._id card) (Card.front card) (Card.back card)) cards = cards.
Proof.
  induction cards as [|[card__id front back] cards IH]; [done|]. cbn. by rewrite IH.
Qed.

(** X21. The initialisation effect overwrites all four state variables: run
    in any state, it leaves the title and the cards of the edit target, in
    their order and with their ids, or the empty title and one blank card
    when there is no target, with the cursor on 0 and the front shown; it
    sends nothing. *)
Theorem useEffect_overwrites props s :
  run (useEffect props) s
    = (Normal tt,
       mkWorld (match editDeck props with
                | Some d => mkEditor (Deck.title d) (Deck.cards d) 0 false
                | None => mkEditor "" [Card.mk None "" ""] 0 false
                end) [] 0).
Proof.
  unfold useEffect. destruct (editDeck props) as [d|]; run_handler; [|done].
  by rewrite copy_cards.
Qed.

(** X22. Opening a saved deck and saving it untouched creates nothing: when
    the title of the target is not blank, the target has cards and each of
    them has an id and two sides that are not blank, then, once the title
    update is accepted, the requests are that update followed by one update
    by id per card of the target, in order. *)
Theorem handleSubmit_untouched_deck props env d :
  editDeck props = Some d →
  trim (Deck.title d) ≠ "" →
  Deck.cards d ≠ [] →
  Forall (fun card => Card.has_id card = true ∧ valid card = true) (Deck.cards d) →
  succeeded (fetch_answer env 0 (PutDeck (Deck._id d) (Deck.title d))) →
  let s := opened props in
  ∃ updates,
    requests (trace_of (run (handleSubmit props env s) s))
      = PutDeck (Deck._id d) (Deck.title d) :: updates
    ∧ Forall2 (fun card req =>
                 ∃ card__id, Card._id card = Some card__id
                             ∧ req = PutCard card__id (Card.front card) (Card.back card))
              (Deck.cards d) updates.
Proof.
  intros Hmode Htitle Hne Hall Hput. cbn zeta.
  rewrite (opened_edit props d Hmode), copy_cards.
  set (s := mkEditor (Deck.title d) (Deck.cards d) 0 false).
  assert (collectFlashcards s = Deck.cards d) as Hcollect.
  { unfold collectFlashcards, s. cbn [flashcardsData].
    clear Hne. induction Hall as [|card cards [_ Hvalid] _ IH]; [done|].
    by rewrite filter_cons_True, IH. }
  assert (submittable s) as Hs.
  { split; [done|]. by rewrite Hcollect. }
  pose proof (upserted_edit props env s d Hmode Hput) as Hdeck.
  exists (map (cardRequest props (Deck.deck_id d)) (Deck.cards d)). split.
  - rewrite (run_handleSubmit_upserted props env s _ _ Hs Hdeck). cbn zeta.
    rewrite Hcollect.
    destruct (promise_all _ _) as [[rs|e] w']; unfold trace_of; cbn [snd trace app];
      rewrite requests_cons_Fetch.
    + by destruct (observe_saved_tail (map (cardRequest props (Deck.deck_id d)) (Deck.cards d))
                     (saved_message props)) as (-> & _).
    + by destruct (observe_failed_tail (map (cardRequest props (Deck.deck_id d)) (Deck.cards d)))
        as (-> & _).
  - apply Forall2_fmap_r, Forall_Forall2_diag.
    eapply Forall_impl; [exact Hall|]. intros card [Hid _].
    unfold compose, cardRequest, Card.has_id in *.
    destruct (Card._id card) as [card__id|]; [|done].
    rewrite Hid. by exists card__id.
Qed.

(** ** The view *)

(** X23. The render throws exactly when the cursor is not on a card; when it
    does not throw, the counter it shows lies between 1 and the number of
    cards. *)
Theorem render_throws_off_cursor props s :
  (render props s = Throw TypeError ↔ ¬ cursor_valid s)
  ∧ (∀ v, render props s = Normal v → 1 ≤ counterIndex v ≤ counterTotal v).
Proof.
  unfold render, cursor_valid.
  pose proof (js_index_None (flashcardsData s) (currentCardIndex s)) as Hnone.
  destruct (js_index (flashcardsData s) (currentCardIndex s)) as [card|] eqn:Hcur.
  - apply js_index_Some in Hcur. split.
    + split; [discriminate|]. intros Hout. by destruct Hout.
    + intros v [= <-]. cbn. lia.
  - split; [|discriminate]. split; [|done]. intros _. by apply Hnone.
Qed.

(** X24. In a state that renders, the buttons tell what their handlers would
    do: Previous is disabled exactly when [handlePrev] would change nothing,
    Next is disabled exactly when [handleNext] would change nothing, and the
    Delete button is missing exactly when [handleDeleteCard] would return
    at once, without a dialog and without a request. *)
Theorem render_buttons props env s v :
  render props s = Normal v →
  (prevDisabled v = true ↔ step s (Prev, env) = s)
  ∧ (nextDisabled v = true ↔ step s (Next, env) = s)
  ∧ (deleteShown v = false ↔ run (handleDeleteCard env s) s = (Normal tt, mkWorld s [] 0)).
Proof.
  unfold render.
  destruct (js_index (flashcardsData s) (currentCardIndex s)) as [card|] eqn:Hcur; [|done].
  intros [= <-]. cbn [prevDisabled nextDisabled deleteShown].
  pose proof (js_index_Some _ _ _ Hcur) as Hin.
  split; [|split].
  - rewrite bool_decide_eq_true, step_Prev. case_decide as Hpos.
    + split; [lia|]. intros Heq. apply (f_equal currentCardIndex) in Heq. cbn in Heq. lia.
    + split; [done|]. lia.
  - rewrite bool_decide_eq_true, step_Next. case_decide as Hlast.
    + split; [lia|]. intros Heq. apply (f_equal currentCardIndex) in Heq. cbn in Heq. lia.
    + split; [done|]. lia.
  - unfold handleDeleteCard, Card.has_id. rewrite Hcur.
    destruct (Card._id card) as [card__id|]; [|done].
    destruct (truthy card__id); [|done].
    split; [done|]. run_handler.
    destruct (confirm_answer env); [|done]. cbn.
    by destruct (fetch_answer env 0 (DeleteCard card__id)).
Qed.

(** X25. What is on screen after AddCard, in every state: the counter reads
    n+1 of n+1, the card shows "Front side is empty", both text fields are
    empty, Next is disabled and there is no Delete button. *)
Theorem render_after_handleAddFlashcard props env s :
  ∃ v, render props (step s (AddCard, env)) = Normal v
       ∧ counterIndex v = Z.of_nat (length (flashcardsData s)) + 1
       ∧ counterTotal v = Z.of_nat (length (flashcardsData s)) + 1
       ∧ cardText v = "Front side is empty"
       ∧ frontValue v = ""
       ∧ backValue v = ""
       ∧ titleValue v = deckTitle s
       ∧ nextDisabled v = true
       ∧ deleteShown v = false.
Proof.
  rewrite step_AddCard. unfold render. cbn [flashcardsData currentCardIndex isFlipped deckTitle].
  rewrite js_index_middle. eexists. split; [done|].
  cbn. rewrite length_app. cbn. repeat split; try lia.
  apply bool_decide_eq_true. lia.
Qed.

(** X26. Opened in create mode, or on a target that has at least one card,
    the component renders in every state it can reach by operations, title
    changes and saves: there is always a card under the cursor, so the render
    never throws. *)
Theorem reachable_renders props s :
  (∀ d, editDeck props = Some d → Deck.cards d ≠ []) →
  reachable props s →
  ∃ v, render props s = Normal v.
Proof.
  intros Hcards Hreach.
  destruct (reachable_well_formed props s Hcards Hreach) as [_ Hcur].
  destruct (render props s) as [v|e] eqn:Hrender; [by exists v|].
  exfalso. unfold render in Hrender.
  destruct (js_index (flashcardsData s) (currentCardIndex s)) eqn:Hidx; [done|].
  by apply js_index_None in Hidx.
Qed.

(** X27. Whenever Previous, Next, AddCard or Delete changes the state, the
    next render shows the front of the card under the cursor (or the front
    placeholder), never its back. *)
Theorem render_front_after_move props env s op v :
  op ∈ [Prev; Next; AddCard; DeleteCurrent] →
  step s (op, env) ≠ s →
  render props (step s (op, env)) = Normal v →
  cardText v = js_or (frontValue v) "Front side is empty".
Proof.
  intros Hop Hmoved. destruct (step_resets_flip s op env Hop) as [?|Hflip]; [done|].
  unfold render. destruct (js_index _ _) as [card|]; [|done].
  intros [= <-]. cbn. by rewrite Hflip.
Qed.

(** ** The further properties on concrete states *)

Lemma cursor_valid_three : cursor_valid Cases.three.
Proof. unfold cursor_valid. simpl. lia. Defined.

(** Five times Next from the middle of three cards ends on the last card. *)
Lemma handleNext_iterated_witness :
  let s' := steps Cases.three (replicate 5 (Next, Scenario.accepting)) in
  cursor_valid Cases.three
  ∧ currentCardIndex s' = Z.min (1 + 5) (3 - 1)
  ∧ flashcardsData s' = flashcardsData Cases.three
  ∧ deckTitle s' = deckTitle Cases.three.
Proof.
  cbn zeta. split; [exact cursor_valid_three|].
  exact (handleNext_iterated Cases.three Scenario.accepting 5 cursor_valid_three).
Defined.

(** Five times Previous from the middle of three cards ends on the first. *)
Lemma handlePrev_iterated_witness :
  let s' := steps Cases.three (replicate 5 (Prev, Scenario.accepting)) in
  cursor_valid Cases.three
  ∧ currentCardIndex s' = Z.max (1 - 5) 0
  ∧ flashcardsData s' = flashcardsData Cases.three
  ∧ deckTitle s' = deckTitle Cases.three.
Proof.
  cbn zeta. split; [exact cursor_valid_three|].
  exact (handlePrev_iterated Cases.three Scenario.accepting 5 cursor_valid_three).
Defined.

Lemma handleNext_then_handlePrev_witness :
  0 ≤ currentCardIndex Cases.three < Z.of_nat (length (flashcardsData Cases.three)) - 1
  ∧ step (step Cases.three (Next, Scenario.accepting)) (Prev, Scenario.accepting)
    = mkEditor (deckTitle Cases.three) (flashcardsData Cases.three)
        (currentCardIndex Cases.three) false.
Proof.
  assert (0 ≤ currentCardIndex Cases.three
          < Z.of_nat (length (flashcardsData Cases.three)) - 1) as Hc.
  { simpl. lia. }
  split; [exact Hc|].
  exact (handleNext_then_handlePrev Cases.three Scenario.accepting Scenario.accepting Hc).
Defined.

(** Typing "Lisbon" on the middle card of three. *)
Lemma handleChange_current_witness :
  let before := [Card.mk (Some "c1") "France capital?" "Paris"] in
  let card := Card.mk (Some "c2") "Spain capital?" "Madrid" in
  let after := [Card.mk (Some "c3") "Italy capital?" "Rome"] in
  (flashcardsData Cases.three = before ++ card :: after
   ∧ currentCardIndex Cases.three = Z.of_nat (length before))
  ∧ run (handleChangeFront Cases.three "Lisbon") Cases.three
    = (Normal tt,
       mkWorld (mkEditor "Capitals"
                  (before ++ Card.mk (Some "c2") "Lisbon" "Madrid" :: after) 1 true) [] 0)
  ∧ run (handleChangeBack Cases.three "Lisbon") Cases.three
    = (Normal tt,
       mkWorld (mkEditor "Capitals"
                  (before ++ Card.mk (Some "c2") "Spain capital?" "Lisbon" :: after) 1 true) [] 0).
Proof.
  cbn zeta. split; [split; reflexivity|].
  exact (handleChange_current Cases.three
           [Card.mk (Some "c1") "France capital?" "Paris"]
           (Card.mk (Some "c2") "Spain capital?" "Madrid")
           [Card.mk (Some "c3") "Italy capital?" "Rome"] "Lisbon" eq_refl eq_refl).
Defined.

(** Deleting the middle card of three, against a store that answers with an
    error status: the fetch is not rejected, and the card goes. *)
Lemma handleDeleteCard_removes_current_witness :
  let before := [Card.mk (Some "c1") "France capital?" "Paris"] in
  let card := Card.mk (Some "c2") "Spain capital?" "Madrid" in
  let after := [Card.mk (Some "c3") "Italy capital?" "Rome"] in
  (flashcardsData Cases.three = before ++ card :: after
   ∧ currentCardIndex Cases.three = Z.of_nat (length before)
   ∧ before ++ after ≠ []
   ∧ fetch_answer Scenario.refusing 0 (DeleteCard "c2") ≠ Rejected)
  ∧ run (handleDeleteCard Scenario.refusing Cases.three) Cases.three
    = (Normal tt,
       mkWorld (mkEditor "Capitals" (before ++ after) 0 false)
               [Confirm "Are you sure you want to delete this card?";
                Fetch (DeleteCard "c2")] 1).
Proof.
  cbn zeta.
  assert ([Card.mk (Some "c1") "France capital?" "Paris"]
          ++ [Card.mk (Some "c3") "Italy capital?" "Rome"] ≠ []) as Hrest.
  { discriminate. }
  assert (fetch_answer Scenario.refusing 0 (DeleteCard "c2") ≠ Rejected) as Hfetch.
  { discriminate. }
  split; [split; [reflexivity|split; [reflexivity|split; [exact Hrest|exact Hfetch]]]|].
  exact (handleDeleteCard_removes_current Scenario.refusing Cases.three
           [Card.mk (Some "c1") "France capital?" "Paris"]
           (Card.mk (Some "c2") "Spain capital?" "Madrid")
           [Card.mk (Some "c3") "Italy capital?" "Rome"] "c2"
           eq_refl eq_refl Hrest eq_refl eq_refl eq_refl Hfetch).
Defined.

Lemma collectFlashcards_navigation_witness :
  AddCard ∈ [Flip; Prev; Next; AddCard]
  ∧ collectFlashcards (step Scenario.capitals (AddCard, Scenario.accepting))
    = collectFlashcards Scenario.capitals.
Proof.
  assert (AddCard ∈ [Flip; Prev; Next; AddCard]) as Hop.
  { do 3 apply list_elem_of_further. apply list_elem_of_here. }
  split; [exact Hop|].
  exact (collectFlashcards_navigation Scenario.capitals AddCard Scenario.accepting Hop).
Defined.

Lemma deck_upserted_capitals env :
  fetch_answer env 0 (PostDeck "ana" "Capitals" "geo")
    = Fulfilled (Response.mk true (WithDeck (Some "d1"))) →
  deck_upserted Scenario.create_props env Scenario.capitals
    (PostDeck "ana" "Capitals" "geo") (Some "d1").
Proof.
  intros Hres.
  by apply (upserted_create Scenario.create_props env Scenario.capitals
              (Subject.mk "geo") (Response.mk true (WithDeck (Some "d1"))) (Some "d1")).
Defined.

(** The create-mode scenario against a store that creates the deck and then
    cannot be reached. *)
Lemma handleSubmit_card_rejected_all_sent_witness :
  let s := Scenario.capitals in
  let req := PostDeck "ana" "Capitals" "geo" in
  let r := run (handleSubmit Scenario.create_props Cases.unreachable_cards s) s in
  (submittable s
   ∧ deck_upserted Scenario.create_props Cases.unreachable_cards s req (Some "d1")
   ∧ Rejected ∈ cardAnswers Scenario.create_props Cases.unreachable_cards (Some "d1") 1
                  (collectFlashcards s))
  ∧ requests (trace_of r) = [req; PostCard "ana" (Some "d1") "France capital?" "Paris"]
  ∧ alerts (trace_of r) = [save_failed_message]
  ∧ callbacks (trace_of r) = 0%nat
  ∧ state_after r = s.
Proof.
  cbn zeta.
  pose proof (deck_upserted_capitals Cases.unreachable_cards eq_refl) as Hdeck.
  assert (Rejected ∈ cardAnswers Scenario.create_props Cases.unreachable_cards (Some "d1") 1
                       (collectFlashcards Scenario.capitals)) as Hcards.
  { vm_compute. apply list_elem_of_here. }
  split; [split; [exact submittable_capitals|split; [exact Hdeck|exact Hcards]]|].
  exact (handleSubmit_card_rejected_all_sent Scenario.create_props Cases.unreachable_cards
           Scenario.capitals (PostDeck "ana" "Capitals" "geo") (Some "d1")
           submittable_capitals Hdeck Hcards).
Defined.

Lemma handleSubmit_without_subject_witness :
  let s := Scenario.capitals in
  let r := run (handleSubmit Cases.no_subject_props Scenario.accepting s) s in
  (submittable s
   ∧ editDeck Cases.no_subject_props = None
   ∧ subject Cases.no_subject_props = None)
  ∧ requests (trace_of r) = []
  ∧ alerts (trace_of r) = [save_failed_message]
  ∧ callbacks (trace_of r) = 0%nat
  ∧ state_after r = s.
Proof.
  cbn zeta. split; [split; [exact submittable_capitals|split; reflexivity]|].
  exact (handleSubmit_without_subject Cases.no_subject_props Scenario.accepting
           Scenario.capitals submittable_capitals eq_refl eq_refl).
Defined.

Lemma handleSubmit_unusable_body_witness :
  let s := Scenario.capitals in
  let res := Response.mk true NotJson in
  let r := run (handleSubmit Scenario.create_props Cases.garbled s) s in
  (submittable s
   ∧ fetch_answer Cases.garbled 0 (PostDeck "ana" "Capitals" "geo") = Fulfilled res
   ∧ Response.ok res = true
   ∧ (Response.json res = NotJson ∨ Response.json res = NoDeck))
  ∧ requests (trace_of r) = [PostDeck "ana" "Capitals" "geo"]
  ∧ alerts (trace_of r) = [save_failed_message]
  ∧ callbacks (trace_of r) = 0%nat
  ∧ state_after r = s.
Proof.
  cbn zeta.
  split; [split; [exact submittable_capitals|split; [reflexivity|split; [reflexivity|]]]|].
  - left. reflexivity.
  - exact (handleSubmit_unusable_body Scenario.create_props Cases.garbled Scenario.capitals
             (Subject.mk "geo") (Response.mk true NotJson)
             submittable_capitals eq_refl eq_refl eq_refl eq_refl (or_introl eq_refl)).
Defined.

Lemma handleSubmit_twice_witness :
  let s := Scenario.capitals in
  let s1 := state_after (run (handleSubmit Scenario.create_props Scenario.accepting s) s) in
  (submittable s
   ∧ deck_upserted Scenario.create_props Scenario.accepting s
       (PostDeck "ana" "Capitals" "geo") (Some "d1")
   ∧ Rejected ∉ cardAnswers Scenario.create_props Scenario.accepting (Some "d1") 1
                  (collectFlashcards s))
  ∧ run (handleSubmit Scenario.create_props Scenario.accepting s1) s1
    = (Normal tt, mkWorld (mkEditor "" [Card.blank] 0 false)
                    [Alert "Deck title is required!"] 0).
Proof.
  cbn zeta.
  pose proof (deck_upserted_capitals Scenario.accepting eq_refl) as Hdeck.
  assert (Rejected ∉ cardAnswers Scenario.create_props Scenario.accepting (Some "d1") 1
                       (collectFlashcards Scenario.capitals)) as Hcards.
  { vm_compute. intros Hin. inversion Hin as [|? ? ? Hin']. inversion Hin'. }
  split; [split; [exact submittable_capitals|split; [exact Hdeck|exact Hcards]]|].
  exact (handleSubmit_twice Scenario.create_props Scenario.accepting Scenario.accepting
           Scenario.capitals (PostDeck "ana" "Capitals" "geo") (Some "d1")
           submittable_capitals Hdeck Hcards).
Defined.

(** A saved deck of two cards, opened and saved as it is. *)
Lemma handleSubmit_untouched_deck_witness :
  let d := Cases.saved_target in
  let s := opened Cases.saved_props in
  (trim (Deck.title d) ≠ ""
   ∧ Deck.cards d ≠ []
   ∧ Forall (fun card => Card.has_id card = true ∧ valid card = true) (Deck.cards d)
   ∧ succeeded (fetch_answer Scenario.accepting 0 (PutDeck (Deck._id d) (Deck.title d))))
  ∧ ∃ updates,
      requests (trace_of (run (handleSubmit Cases.saved_props Scenario.accepting s) s))
        = PutDeck "A" "Capitals" :: updates
      ∧ Forall2 (fun card req =>
                   ∃ card__id, Card._id card = Some card__id
                               ∧ req = PutCard card__id (Card.front card) (Card.back card))
                (Deck.cards d) updates.
Proof.
  cbn zeta.
  assert (trim (Deck.title Cases.saved_target) ≠ "") as Htitle.
  { vm_compute. discriminate. }
  assert (Deck.cards Cases.saved_target ≠ []) as Hne.
  { discriminate. }
  assert (Forall (fun card => Card.has_id card = true ∧ valid card = true)
                 (Deck.cards Cases.saved_target)) as Hall.
  { repeat constructor. }
  assert (succeeded (fetch_answer Scenario.accepting 0
                       (PutDeck (Deck._id Cases.saved_target)
                                (Deck.title Cases.saved_target)))) as Hput.
  { eexists. split; reflexivity. }
  split; [split; [exact Htitle|split; [exact Hne|split; [exact Hall|exact Hput]]]|].
  exact (handleSubmit_untouched_deck Cases.saved_props Scenario.accepting Cases.saved_target
           eq_refl Htitle Hne Hall Hput).
Defined.

Lemma render_buttons_witness :
  ∃ v, render Scenario.create_props Scenario.capitals = Normal v
       ∧ (prevDisabled v = true
          ↔ step Scenario.capitals (Prev, Scenario.accepting) = Scenario.capitals)
       ∧ (nextDisabled v = true
          ↔ step Scenario.capitals (Next, Scenario.accepting) = Scenario.capitals)
       ∧ (deleteShown v = false
          ↔ run (handleDeleteCard Scenario.accepting Scenario.capitals) Scenario.capitals
            = (Normal tt, mkWorld Scenario.capitals [] 0)).
Proof.
  eexists. split; [reflexivity|].
  apply (render_buttons Scenario.create_props Scenario.accepting Scenario.capitals).
  reflexivity.
Defined.

Lemma create_props_no_target :
  ∀ d, editDeck Scenario.create_props = Some d → Deck.cards d ≠ [].
Proof. intros d Hmode. discriminate Hmode. Defined.

(** Create mode, one card added, then a Save that the checks refuse. *)
Lemma reachable_renders_witness :
  let s1 := step (opened Scenario.create_props) (AddCard, Scenario.accepting) in
  let s2 := state_after (run (handleSubmit Scenario.create_props Scenario.accepting s1) s1) in
  reachable Scenario.create_props s2
  ∧ ∃ v, render Scenario.create_props s2 = Normal v.
Proof.
  cbn zeta.
  assert (reachable Scenario.create_props
            (state_after
               (run (handleSubmit Scenario.create_props Scenario.accepting
                       (step (opened Scenario.create_props) (AddCard, Scenario.accepting)))
                    (step (opened Scenario.create_props) (AddCard, Scenario.accepting)))))
    as Hreach.
  { apply reachable_save, reachable_step, reachable_opened. }
  split; [exact Hreach|].
  exact (reachable_renders Scenario.create_props _ create_props_no_target Hreach).
Defined.

(** Next from the flipped middle card of three. *)
Lemma render_front_after_move_witness :
  ∃ v, (Next ∈ [Prev; Next; AddCard; DeleteCurrent]
        ∧ step Cases.three (Next, Scenario.accepting) ≠ Cases.three
        ∧ render Scenario.create_props (step Cases.three (Next, Scenario.accepting)) = Normal v)
       ∧ cardText v = js_or (frontValue v) "Front side is empty".
Proof.
  assert (Next ∈ [Prev; Next; AddCard; DeleteCurrent]) as Hop.
  { apply list_elem_of_further, list_elem_of_here. }
  assert (step Cases.three (Next, Scenario.accepting) ≠ Cases.three) as Hmoved.
  { vm_compute. discriminate. }
  eexists. split; [split; [exact Hop|split; [exact Hmoved|reflexivity]]|].
  exact (render_front_after_move Scenario.create_props Scenario.accepting Cases.three Next _
           Hop Hmoved eq_refl).
Defined.
